(** * Wallet ledger of virtual-wallet-app: a shallow embedding

    The services of [app/services/wallet.py] ([WalletServices]) and the
    request schemas of [app/schemas/wallet.py].  The database session is a
    store of three tables (users, wallets, transactions) threaded through a
    small state-and-error monad: an [HTTPException] raised by a service is an
    [Err] result together with the store as it stood at the raise.

    Numbers: the columns [Wallet.balance] and [Transaction.amount] are
    SQLAlchemy [Float] and the request fields are pydantic [float], i.e.
    IEEE-754 binary64.  The services only use [+=], [-=] and [>] on them, so
    the services are written once over that interface ([PyNum]) and
    instantiated at Rocq's primitive binary64 floats, which is the code. *)

From Stdlib Require Import ZArith List String Bool QArith Lia.
From Stdlib Require Import Floats.
Import ListNotations.

Open Scope Z_scope.

(** Decimal float literals such as [0.1%float] denote the nearest binary64
    value, as Python's [float("0.1")] does. *)
Set Warnings "-inexact-float".

(** ** Numbers: the operators the services apply to balances and amounts *)

Class PyNum (N : Type) := {
  py_zero : N;
  py_add : N -> N -> N;     (* [x + y], [x += y] *)
  py_sub : N -> N -> N;     (* [x - y], [x -= y] *)
  py_gt : N -> N -> bool    (* [x > y] *)
}.

(** Python [float]: binary64, round to nearest even.  [x > y] is false as
    soon as one side is NaN, which is [PrimFloat.ltb y x]. *)
#[global] Instance float_PyNum : PyNum float := {
  py_zero := 0%float;
  py_add := PrimFloat.add;
  py_sub := PrimFloat.sub;
  py_gt := fun x y => PrimFloat.ltb y x
}.

(** ** Data model ([app/models/models.py]) *)

Record User := mkUser {
  user_id : Z;
  active : bool;
  verified : bool
}.

Section Model.
Context {N : Type}.

Record Wallet := mkWallet {
  wallet_id : Z;
  wallet_user_id : Z;
  balance : N
}.

(** [Transaction.type] is one of the five strings the services write. *)
Inductive TxType := Deposit | Withdraw | Purchase | Transfer | Receive.

Record Transaction := mkTransaction {
  tx_wallet_id : Z;
  tx_type : TxType;
  tx_amount : N;
  tx_category : option string
}.

Record DB := mkDB {
  users : list User;
  wallets : list Wallet;
  transactions : list Transaction
}.

(** The [HTTPException]s the services raise, by their [detail]. *)
Inductive HTTPError :=
| UserStatus (status_detail : string)     (* 403 "User is not {detail}. Access denied." *)
| WalletNotFound (uid : Z)                (* 404, [get_wallet_info] *)
| InsufficientFunds (current : N)         (* 400 *)
| RecipientNotFound (rid : Z)             (* 404 *)
| RecipientInactive                       (* 403 *)
| RecipientUnverified.                    (* 403 *)

Inductive Result (A : Type) :=
| Ok (a : A)
| Err (e : HTTPError).

End Model.

Arguments Wallet : clear implicits.
Arguments Transaction : clear implicits.
Arguments DB : clear implicits.
Arguments HTTPError : clear implicits.
Arguments Result : clear implicits.
Arguments Ok {N A} a.
Arguments Err {N A} e.

(** ** The session monad: state passing with exceptions *)

Definition M (N A : Type) := DB N -> Result N A * DB N.

Definition ret {N A} (a : A) : M N A := fun db => (Ok a, db).
Definition raise {N A} (e : HTTPError N) : M N A := fun db => (Err e, db).
Definition bind {N A B} (m : M N A) (k : A -> M N B) : M N B :=
  fun db => match m db with
            | (Ok a, db') => k a db'
            | (Err e, db') => (Err e, db')
            end.

Notation "x <- c ;; k" := (bind c (fun x => k))
  (at level 61, c at next level, right associativity).
Notation "c ;;; k" := (bind c (fun _ => k))
  (at level 61, right associativity).

(** ** Store access *)

Section Services.
Context {N : Type} `{PyNum N}.

(** [select(User).filter_by(id=uid)] then [.scalars().first()] *)
Definition find_user (uid : Z) : M N (option User) :=
  fun db => (Ok (find (fun u => Z.eqb (user_id u) uid) (users db)), db).

(** [get_wallet_info]: [select(Wallet).filter_by(user_id=uid)], first row,
    404 when there is none. *)
Definition get_wallet_info (uid : Z) : M N (Wallet N) :=
  fun db =>
    match find (fun w => Z.eqb (wallet_user_id w) uid) (wallets db) with
    | Some w => (Ok w, db)
    | None => (Err (WalletNotFound uid), db)
    end.

(** [wallet.balance = f(wallet.balance)] on the session's object for the
    row [wid].  The session's identity map holds one object per primary key,
    so the update reads the current value of the row: two handles on one
    row ([wallet] and [recipient_wallet] in a self-transfer) see each
    other's writes. *)
Definition set_balance (wid : Z) (f : N -> N) : M N unit :=
  fun db =>
    (Ok tt,
     mkDB (users db)
          (map (fun w => if Z.eqb (wallet_id w) wid
                         then mkWallet (wallet_id w) (wallet_user_id w) (f (balance w))
                         else w) (wallets db))
          (transactions db)).

(** [db.add(t)] / [db.add_all(ts)], then [db.commit()]: the rows are
    appended to the transaction table. *)
Definition add_all (ts : list (Transaction N)) : M N unit :=
  fun db => (Ok tt, mkDB (users db) (wallets db) (transactions db ++ ts)).

(** [db.refresh(wallet)] then [wallet.balance]. *)
Definition refresh_balance (w : Wallet N) : M N N :=
  fun db =>
    (Ok (match find (fun w' => Z.eqb (wallet_id w') (wallet_id w)) (wallets db) with
         | Some w' => balance w'
         | None => balance w
         end), db).

(** ** [WalletServices] *)

(** [validate_user_status] *)
Definition validate_user_status (user : User) : M N unit :=
  if active user && verified user then ret tt
  else raise (UserStatus (if negb (active user) then "active" else "verified")).

(** [deposit_funds]: returns [amount_deposited] and [wallet_balance]. *)
Definition deposit_funds (user : User) (amount : N) : M N (N * N) :=
  validate_user_status user ;;;
  wallet <- get_wallet_info (user_id user) ;;
  set_balance (wallet_id wallet) (fun b => py_add b amount) ;;;
  add_all [mkTransaction (wallet_id wallet) Deposit amount None] ;;;
  b <- refresh_balance wallet ;;
  ret (amount, b).

(** [withdraw_funds] *)
Definition withdraw_funds (user : User) (amount : N) : M N (N * N) :=
  validate_user_status user ;;;
  wallet <- get_wallet_info (user_id user) ;;
  if py_gt amount (balance wallet) then raise (InsufficientFunds (balance wallet))
  else
    set_balance (wallet_id wallet) (fun b => py_sub b amount) ;;;
    add_all [mkTransaction (wallet_id wallet) Withdraw amount None] ;;;
    b <- refresh_balance wallet ;;
    ret (amount, b).

(** [buy_goods] *)
Definition buy_goods (user : User) (amount : N) (category : string) : M N (N * N) :=
  validate_user_status user ;;;
  wallet <- get_wallet_info (user_id user) ;;
  if py_gt amount (balance wallet) then raise (InsufficientFunds (balance wallet))
  else
    set_balance (wallet_id wallet) (fun b => py_sub b amount) ;;;
    add_all [mkTransaction (wallet_id wallet) Purchase amount (Some category)] ;;;
    b <- refresh_balance wallet ;;
    ret (amount, b).

(** [transfer_funds] *)
Definition transfer_funds (user : User) (amount : N) (recipient_id : Z)
    (spending_category : string) : M N (N * N) :=
  validate_user_status user ;;;
  wallet <- get_wallet_info (user_id user) ;;
  if py_gt amount (balance wallet) then raise (InsufficientFunds (balance wallet))
  else
    recipient_info <- find_user recipient_id ;;
    match recipient_info with
    | None => raise (RecipientNotFound recipient_id)
    | Some r =>
      if negb (active r) then raise RecipientInactive
      else if negb (verified r) then raise RecipientUnverified
      else
        recipient_wallet <- get_wallet_info recipient_id ;;
        set_balance (wallet_id wallet) (fun b => py_sub b amount) ;;;
        set_balance (wallet_id recipient_wallet) (fun b => py_add b amount) ;;;
        add_all [mkTransaction (wallet_id wallet) Transfer amount (Some spending_category);
                 mkTransaction (wallet_id recipient_wallet) Receive amount None] ;;;
        b <- refresh_balance wallet ;;
        ret (amount, b)
    end.

(** [get_balance] *)
Definition get_balance (user : User) : M N N :=
  validate_user_status user ;;;
  wallet <- get_wallet_info (user_id user) ;;
  ret (balance wallet).

(** ** Requests and runs

    One request per endpoint of [app/routes/wallet.py]; the acting user is
    the authenticated [User] row the route hands to the service. *)

Inductive Request :=
| RDeposit (user : User) (amount : N)
| RWithdraw (user : User) (amount : N)
| RPurchase (user : User) (amount : N) (category : string)
| RTransfer (user : User) (amount : N) (recipient_id : Z) (category : string)
| RGetBalance (user : User).

Definition request_user (r : Request) : User :=
  match r with
  | RDeposit u _ | RWithdraw u _ | RPurchase u _ _ | RTransfer u _ _ _
  | RGetBalance u => u
  end.

Definition exec_request (r : Request) : M N N :=
  match r with
  | RDeposit u a => p <- deposit_funds u a ;; ret (snd p)
  | RWithdraw u a => p <- withdraw_funds u a ;; ret (snd p)
  | RPurchase u a c => p <- buy_goods u a c ;; ret (snd p)
  | RTransfer u a rid c => p <- transfer_funds u a rid c ;; ret (snd p)
  | RGetBalance u => get_balance u
  end.

Definition is_ok {A} (r : Result N A) : bool :=
  match r with Ok _ => true | Err _ => false end.

(** Runs the requests one after the other on the store; returns the final
    store and the requests that committed, in order. *)
Fixpoint run (rs : list Request) (db : DB N) : DB N * list Request :=
  match rs with
  | [] => (db, [])
  | r :: rs' =>
    let '(res, db1) := exec_request r db in
    let '(dbf, cs) := run rs' db1 in
    (dbf, if is_ok res then r :: cs else cs)
  end.

(** Sum of all wallet balances, and the money that entered and left the
    closed set of wallets through committed requests. *)
Definition sum_balances (db : DB N) : N :=
  fold_right (fun w acc => py_add (balance w) acc) py_zero (wallets db).

Definition deposited (r : Request) : N :=
  match r with RDeposit _ a => a | _ => py_zero end.

Definition withdrawn_or_spent (r : Request) : N :=
  match r with RWithdraw _ a | RPurchase _ a _ => a | _ => py_zero end.

Definition total (f : Request -> N) (cs : list Request) : N :=
  fold_right (fun r acc => py_add (f r) acc) py_zero cs.

End Services.

Arguments Request : clear implicits.

(** ** Lookups used in statements *)

Definition first_wallet_of {N} (uid : Z) (db : DB N) : option (Wallet N) :=
  find (fun w => Z.eqb (wallet_user_id w) uid) (wallets db).

Definition first_user {N} (uid : Z) (db : DB N) : option User :=
  find (fun u => Z.eqb (user_id u) uid) (users db).

(** [wallet.id] is the primary key of the wallet table. *)
Definition wallet_ids_unique {N} (db : DB N) : Prop :=
  NoDup (map wallet_id (wallets db)).

(** The wallet table after [wallet.balance = f(wallet.balance)] on row [wid]. *)
Definition update_wallets {N} (wid : Z) (f : N -> N) (ws : list (Wallet N)) :=
  map (fun w => if Z.eqb (wallet_id w) wid
                then mkWallet (wallet_id w) (wallet_user_id w) (f (balance w))
                else w) ws.

(** One row of that map. *)
Definition upd {N} (wid : Z) (f : N -> N) (w : Wallet N) : Wallet N :=
  if Z.eqb (wallet_id w) wid then mkWallet (wallet_id w) (wallet_user_id w) (f (balance w)) else w.

(** ** Request schemas ([app/schemas/wallet.py])

    [amount: float = Field(..., gt=0)] and
    [category: str = Field(..., min_length=3, max_length=100)]; pydantic counts
    characters, one [ascii] of a Rocq [string] standing for one character. *)

Record PurchaseRequest := mkPurchaseRequest {
  purchase_amount : float;
  purchase_category : string
}.

Record TransferRequest := mkTransferRequest {
  transfer_amount : float;
  transfer_recipient_id : Z;
  transfer_spending_category : string
}.

Definition str_field_ok (min_length max_length : nat) (s : string) : bool :=
  Nat.leb min_length (String.length s) && Nat.leb (String.length s) max_length.

Definition float_gt_0 (x : float) : bool := PrimFloat.ltb 0%float x.

Definition validate_PurchaseRequest (amount : float) (category : string)
    : option PurchaseRequest :=
  if float_gt_0 amount && str_field_ok 3 100 category
  then Some (mkPurchaseRequest amount category) else None.

Definition validate_TransferRequest (amount : float) (recipient_id : Z)
    (spending_category : string) : option TransferRequest :=
  if float_gt_0 amount && str_field_ok 3 100 spending_category
  then Some (mkTransferRequest amount recipient_id spending_category) else None.

(** ** Binary64 *)

(** The exact rational value of a finite float (0 for the others). *)
Definition spec_float_to_Q (x : spec_float) : Q :=
  match x with
  | S754_finite s m e =>
    let v := if Z.leb 0 e then inject_Z (Zpos m * 2 ^ e)
             else Qmake (Zpos m) (Pos.pow 2 (Z.to_pos (- e))) in
    if s then Qopp v else v
  | _ => 0%Q
  end.

Definition float_to_Q (x : float) : Q := spec_float_to_Q (Prim2SF x).

(** The amount contract of the spec: strictly positive and finite. *)
Definition amount_ok (a : float) : bool :=
  PrimFloat.ltb 0%float a && PrimFloat.ltb a infinity.

Definition nonneg (x : float) : bool := PrimFloat.leb 0%float x.

Definition sf_nonneg (x : spec_float) : Prop :=
  match x with
  | S754_zero _ | S754_infinity false | S754_finite false _ _ => True
  | _ => False
  end.

Definition sign_is (s : bool) (x : spec_float) : Prop :=
  match x with
  | S754_zero s' | S754_infinity s' | S754_finite s' _ _ => s' = s
  | S754_nan => False
  end.


(** ** Statements' vocabulary *)

(** The balance of the wallet row [wid], if any. *)
Definition balance_of {N} (wid : Z) (db : DB N) : option N :=
  option_map balance (find (fun w => Z.eqb (wallet_id w) wid) (wallets db)).

Definition balances_nonneg (db : DB float) : Prop :=
  Forall (fun w => nonneg (balance w) = true) (wallets db).

Definition request_amount_ok (r : Request float) : bool :=
  match r with
  | RDeposit _ a | RWithdraw _ a | RPurchase _ a _ | RTransfer _ a _ _ => amount_ok a
  | RGetBalance _ => true
  end.

(** Money in the exact values of the floats: balances plus what left the
    wallets, against what entered them. *)
Definition exact_sum (xs : list float) : Q :=
  fold_right (fun x acc => Qplus (float_to_Q x) acc) 0%Q xs.

Definition conserved_exactly (db0 dbf : DB float) (cs : list (Request float)) : bool :=
  Qeq_bool (exact_sum (map balance (wallets dbf)) + exact_sum (map withdrawn_or_spent cs))
           (exact_sum (map balance (wallets db0)) + exact_sum (map deposited cs)).


(** Integer-valued floats: [Some n] when the float is exactly the integer
    [n] (both zeros give 0), [None] for the other floats. *)
Definition sf_int (x : spec_float) : option Z :=
  match x with
  | S754_zero _ => Some 0
  | S754_finite s m e =>
    if Z.leb 0 e then Some (cond_Zopp s (Zpos m * 2 ^ e))
    else if Z.eqb (Zpos m mod 2 ^ (- e)) 0 then Some (cond_Zopp s (Zpos m / 2 ^ (- e)))
    else None
  | _ => None
  end.

Definition float_int (x : float) : option Z := sf_int (Prim2SF x).

Definition is_int (x : float) : bool :=
  match float_int x with Some _ => true | None => false end.

Definition int_of (x : float) : Z :=
  match float_int x with Some n => n | None => 0 end.

(** The [amount] field of a request (none for [get_balance]). *)
Definition request_amount (r : Request float) : float :=
  match r with
  | RDeposit _ a | RWithdraw _ a | RPurchase _ a _ | RTransfer _ a _ _ => a
  | RGetBalance _ => 0%float
  end.

(** The integers that the balances and amounts hold, and their magnitudes. *)
Definition int_sum (ws : list (Wallet float)) : Z :=
  fold_right (fun w acc => int_of (balance w) + acc) 0 ws.

Definition int_total (f : Request float -> float) (cs : list (Request float)) : Z :=
  fold_right (fun r acc => int_of (f r) + acc) 0 cs.

Definition abs_balances (ws : list (Wallet float)) : Z :=
  fold_right (fun w acc => Z.abs (int_of (balance w)) + acc) 0 ws.

Definition abs_amounts (rs : list (Request float)) : Z :=
  fold_right (fun r acc => Z.abs (int_of (request_amount r)) + acc) 0 rs.

(** Every starting balance and every amount is an integer-valued float,
    and the starting magnitudes plus twice the amounts stay below [2^53]:
    then no [+=] or [-=] of the services rounds. *)
Definition exact_in_binary64 (db : DB float) (rs : list (Request float)) : bool :=
  forallb (fun w => is_int (balance w)) (wallets db) &&
  forallb (fun r => is_int (request_amount r)) rs &&
  Z.ltb (abs_balances (wallets db) + 2 * abs_amounts rs) (2 ^ 53).

(** ** A small store: two verified users, each with the wallet created at
    signup ([AuthServices.create_user], balance 0.0). *)

Definition alice : User := mkUser 1 true true.
Definition bob : User := mkUser 2 true true.

Definition signup_store {N} `{PyNum N} : DB N :=
  mkDB [alice; bob] [mkWallet 10 1 py_zero; mkWallet 20 2 py_zero] [].

Definition alice_with (b : float) : DB float :=
  mkDB [alice; bob] [mkWallet 10 1 b; mkWallet 20 2 0%float] [].

(** The number of transaction records a committed request writes. *)
Definition records_written {N} (r : Request N) : nat :=
  match r with
  | RDeposit _ _ | RWithdraw _ _ | RPurchase _ _ _ => 1
  | RTransfer _ _ _ _ => 2
  | RGetBalance _ => 0
  end%nat.

(** ** Accounts ([app/services/auth.py], [app/core/security.py])

    The [user] table with the columns the account services read and write.
    [to_user] is the view of a row the wallet services take: the routes
    hand the row [get_current_user] found to the service. *)

Record UserRow := mkUserRow {
  row_id : Z;
  email : string;
  name : string;
  password_hash : string;
  row_verified : bool;   (* [verified], default False *)
  row_active : bool;     (* [active], default True *)
  role : string          (* default 'user' *)
}.

Definition to_user (r : UserRow) : User := mkUser (row_id r) (row_active r) (row_verified r).

Definition with_verified (b : bool) (r : UserRow) : UserRow :=
  mkUserRow (row_id r) (email r) (name r) (password_hash r) b (row_active r) (role r).

Definition with_password_hash (h : string) (r : UserRow) : UserRow :=
  mkUserRow (row_id r) (email r) (name r) h (row_verified r) (row_active r) (role r).

(** The whole database: user rows, wallets and transactions. *)
Record Store := mkStore {
  user_rows : list UserRow;
  store_wallets : list (Wallet float);
  store_transactions : list (Transaction float)
}.

(** The tables as the wallet services see them. *)
Definition ledger (s : Store) : DB float :=
  mkDB (map to_user (user_rows s)) (store_wallets s) (store_transactions s).

(** The store after a wallet service committed [db] on [ledger s]; the
    wallet services do not write the user table. *)
Definition with_ledger (s : Store) (db : DB float) : Store :=
  mkStore (user_rows s) (wallets db) (transactions db).

(** [user.field = v] on the session object of row [rid] (primary key). *)
Definition set_row (rid : Z) (f : UserRow -> UserRow) (rows : list UserRow) : list UserRow :=
  map (fun r => if Z.eqb (row_id r) rid then f r else r) rows.

(** The [HTTPException]s of the account services, by their [detail]. *)
Inductive AuthError :=
| EmailTaken                      (* 400 "Email is already registered" *)
| RegistrationFailed              (* 400 "Error during user registration:" *)
| CredentialsInvalid              (* 401 "Could not validate credentials" *)
| InvalidToken                    (* 401 "Invalid token" *)
| AccessDenied (reason : string)  (* 401, [deny_access(reason)] *)
| VerifyFailed                    (* 400 "Could not verify credentials: ..." *)
| UserNotFound                    (* 404 "User not found" *)
| PasswordUpdateFailed.           (* 500 "Error during password update. ..." *)

Inductive AuthResult (A : Type) :=
| AOk (a : A)
| AErr (e : AuthError).

Arguments AOk {A} a.
Arguments AErr {A} e.

(** The two messages of [verify_user]. *)
Inductive VerifyOutcome := AlreadyVerified | NowVerified.

(** A request through a route of [app/routes/wallet.py]: the dependency
    [get_current_user] fails, or the service does. *)
Inductive RouteError :=
| AuthFailed (e : AuthError)
| ServiceFailed (e : HTTPError float).

(** [security.get_user]: [select(User).filter_by(email=email)], first row. *)
Definition get_user (e : string) (s : Store) : option UserRow :=
  find (fun r => String.eqb (email r) e) (user_rows s).

(** The cryptographic primitives the account services call through
    [app/core/security.py] ([Security]): bcrypt and JWT. *)
Class Security := {
  (** [bcrypt.hashpw(password, salt)], where [salt = bcrypt.gensalt()] is
      drawn by the caller; [None] when it raises ([get_password_hash]). *)
  get_password_hash : string -> string -> option string;
  (** [bcrypt.checkpw(password, hashed_password)]; [None] when it raises
      ([verify_password] then raises a 400). *)
  verify_password : string -> string -> option bool;
  (** [jwt.decode(token, ...)] followed by [payload.get('sub')]: [None] on a
      [JWTError] (bad signature, expired, malformed), [Some None] when the
      payload has no ['sub']. *)
  jwt_decode_sub : string -> option (option string);
  (** [create_access_token({'sub': email})]; [None] when it raises
      [credentials_exception]. *)
  create_access_token : string -> option string
}.

Section Auth.
Context `{Security}.

(** [Security.validate_token]: [if not email] refuses [None] and [""]. *)
Definition validate_token (token : string) : AuthResult string :=
  match jwt_decode_sub token with
  | Some (Some e) => if String.eqb e "" then AErr CredentialsInvalid else AOk e
  | _ => AErr CredentialsInvalid
  end.

(** [Security.get_current_user]: [if email is None], then [get_user]. *)
Definition get_current_user (token : string) (s : Store) : AuthResult UserRow :=
  match jwt_decode_sub token with
  | Some (Some e) =>
    match get_user e s with
    | Some u => AOk u
    | None => AErr CredentialsInvalid
    end
  | _ => AErr CredentialsInvalid
  end.

(** [Security.authenticate_user]: the row, or [False] ([None]). *)
Definition authenticate_user (e password : string) (s : Store) : AuthResult (option UserRow) :=
  match get_user e s with
  | None => AOk None
  | Some u =>
    match verify_password password (password_hash u) with
    | None => AErr VerifyFailed
    | Some false => AOk None
    | Some true => AOk (Some u)
    end
  end.

(** [AuthServices.deny_access] *)
Definition deny_access {A} (reason : string) : AuthResult A := AErr (AccessDenied reason).

(** [AuthServices.login_user]; the access token on success. *)
Definition login_user (e password : string) (s : Store) : AuthResult string :=
  match authenticate_user e password s with
  | AErr err => AErr err
  | AOk None => deny_access "Incorrect email or password"
  | AOk (Some u) =>
    if negb (row_verified u) then deny_access "User is not verified"
    else if negb (row_active u) then deny_access "User is not active"
    else match create_access_token (email u) with
         | Some t => AOk t
         | None => AErr CredentialsInvalid
         end
  end.

(** [AuthServices.create_user] for [CreateUser(name, email, password)].
    [new_id] and [new_wallet_id] are the [uuid4] defaults of the two rows,
    [salt] the [bcrypt.gensalt()] of the hash.  The user row and the wallet
    are committed together; the access token for the confirmation mail is
    made after the commit, inside the same [try], so its failure is reported
    as a registration error while the rows stay.  The mail itself is a
    background task outside the store.  Returns the new user's id. *)
Definition create_user (new_name new_email password salt : string) (new_id new_wallet_id : Z)
    (s : Store) : AuthResult Z * Store :=
  match get_user new_email s with
  | Some _ => (AErr EmailTaken, s)
  | None =>
    match get_password_hash password salt with
    | None => (AErr RegistrationFailed, s)
    | Some h =>
      let s' := mkStore (user_rows s ++ [mkUserRow new_id new_email new_name h false true "user"])
                        (store_wallets s ++ [mkWallet new_wallet_id new_id 0%float])
                        (store_transactions s) in
      match create_access_token new_email with
      | None => (AErr RegistrationFailed, s')
      | Some _ => (AOk new_id, s')
      end
    end
  end.

(** [AuthServices.verify_user] *)
Definition verify_user (token : string) (s : Store) : AuthResult VerifyOutcome * Store :=
  match validate_token token with
  | AErr err => (AErr err, s)
  | AOk e =>
    match get_user e s with
    | None => (AErr InvalidToken, s)
    | Some u =>
      if row_verified u then (AOk AlreadyVerified, s)
      else (AOk NowVerified,
            mkStore (set_row (row_id u) (with_verified true) (user_rows s))
                    (store_wallets s) (store_transactions s))
    end
  end.

(** [AuthServices.update_user_password] for [UpdateUserPassword(token,
    new_password)]; a failing hash is caught by the [try] and reported as
    a 500. *)
Definition update_user_password (token new_password salt : string) (s : Store)
    : AuthResult unit * Store :=
  match validate_token token with
  | AErr err => (AErr err, s)
  | AOk e =>
    match get_user e s with
    | None => (AErr UserNotFound, s)
    | Some u =>
      match get_password_hash new_password salt with
      | None => (AErr PasswordUpdateFailed, s)
      | Some h =>
        (AOk tt, mkStore (set_row (row_id u) (with_password_hash h) (user_rows s))
                         (store_wallets s) (store_transactions s))
      end
    end
  end.

(** An endpoint of [app/routes/wallet.py]: the [Depends(get_current_user)]
    dependency, then the service on the user it returned ([mk] builds the
    request from the validated body).  Returns [wallet_balance]. *)
Definition wallet_route (token : string) (mk : User -> Request float) (s : Store)
    : (RouteError + float) * Store :=
  match get_current_user token s with
  | AErr e => (inl (AuthFailed e), s)
  | AOk u =>
    match exec_request (mk (to_user u)) (ledger s) with
    | (Ok b, db) => (inr b, with_ledger s db)
    | (Err e, db) => (inl (ServiceFailed e), with_ledger s db)
    end
  end.

End Auth.

(** A stand-in [Security] for concrete runs: the stored hash is the
    password itself and a token is the email it was issued for. *)
Definition echo_security : Security := {|
  get_password_hash := fun p _ => Some p;
  verify_password := fun p h => Some (String.eqb p h);
  jwt_decode_sub := fun t => Some (Some t);
  create_access_token := fun e => Some e
|}.

(** ** Analytics ([app/services/analytics.py])

    The queries read the transaction table together with [created_at];
    [TxRow] is a row with the calendar day of its [created_at] (a day
    number, [func.date(...)]). *)

Record TxRow {N : Type} := mkTxRow {
  row_tx : Transaction N;
  created_on : Z
}.
Arguments TxRow : clear implicits.

(** The strings the services store in [Transaction.type]. *)
Definition tx_type_name (t : TxType) : string :=
  match t with
  | Deposit => "Deposit"
  | Withdraw => "Withdraw"
  | Purchase => "Purchase"
  | Transfer => "Transfer"
  | Receive => "Receive"
  end.

(** [if transaction_type:] / [if category:]: [None] and [""] are false. *)
Definition filter_given (o : option string) : option string :=
  match o with
  | Some s => if String.eqb s "" then None else Some s
  | None => None
  end.

(** SQL [=] on a nullable text column: [NULL = c] is not true. *)
Definition category_is (c : string) (o : option string) : bool :=
  match o with Some c' => String.eqb c' c | None => false end.

(** [GROUP BY category]: NULL is a group of its own. *)
Definition same_category (o1 o2 : option string) : bool :=
  match o1, o2 with
  | Some c1, Some c2 => String.eqb c1 c2
  | None, None => true
  | _, _ => false
  end.

Section Analytics.
Context {N : Type} `{PyNum N}.

Definition in_window (start end_ : Z) (t : TxRow N) : bool :=
  Z.leb start (created_on t) && Z.leb (created_on t) end_.

(** [AnalyticServices.fetch_transactions] *)
Definition fetch_transactions (start end_ : Z) (transaction_type category : option string)
    (user : User) (rows : list (TxRow N)) : M N (list (TxRow N)) :=
  wallet <- get_wallet_info (user_id user) ;;
  let q := filter (fun t => Z.eqb (tx_wallet_id (row_tx t)) (wallet_id wallet)
                            && in_window start end_ t) rows in
  let q := match filter_given transaction_type with
           | Some ty => filter (fun t => String.eqb (tx_type_name (tx_type (row_tx t))) ty) q
           | None => q
           end in
  let q := match filter_given category with
           | Some c => filter (fun t => category_is c (tx_category (row_tx t))) q
           | None => q
           end in
  ret q.

(** One step of [GROUP BY category] with [SUM(amount)]: the first row of a
    group starts its sum, the next ones are added to it. *)
Fixpoint add_to_group (c : option string) (a : N) (gs : list (option string * N))
    : list (option string * N) :=
  match gs with
  | [] => [(c, a)]
  | (c', s) :: gs' =>
    if same_category c' c then (c', py_add s a) :: gs' else (c', s) :: add_to_group c a gs'
  end.

Definition group_sum (ts : list (Transaction N)) : list (option string * N) :=
  fold_left (fun gs t => add_to_group (tx_category t) (tx_amount t) gs) ts [].

(** [AnalyticServices.calculate_spending_summary]: the (category, amount)
    pairs. *)
Definition calculate_spending_summary (start end_ : Z) (user : User) (rows : list (TxRow N))
    : M N (list (option string * N)) :=
  wallet <- get_wallet_info (user_id user) ;;
  ret (group_sum (map row_tx
         (filter (fun t => Z.eqb (tx_wallet_id (row_tx t)) (wallet_id wallet)
                           && String.eqb (tx_type_name (tx_type (row_tx t))) "Purchase"
                           && in_window start end_ t) rows))).

End Analytics.

Module Binary64.

Lemma shr_1_nonneg r : 0 <= shr_m r -> 0 <= shr_m (shr_1 r).
Proof.
  destruct r as [m rr ss]; simpl; intros Hm.
  destruct m as [|p|p]; [simpl; lia| |lia].
  destruct p; simpl; lia.
Qed.

Lemma iter_shr_1_nonneg p r : 0 <= shr_m r -> 0 <= shr_m (iter_pos shr_1 p r).
Proof.
  revert r; induction p as [p IH|p IH|]; intros r Hr; simpl.
  - apply IH, IH, shr_1_nonneg, Hr.
  - apply IH, IH, Hr.
  - apply shr_1_nonneg, Hr.
Qed.

Lemma shr_fexp_nonneg m e l :
  0 <= m -> 0 <= shr_m (fst (shr_fexp prec emax m e l)).
Proof.
  intros Hm; unfold shr_fexp, shr.
  destruct (_ - e) as [|p|p].
  - destruct l as [|[]]; exact Hm.
  - apply iter_shr_1_nonneg; destruct l as [|[]]; exact Hm.
  - destruct l as [|[]]; exact Hm.
Qed.

Lemma round_nearest_even_nonneg m l : 0 <= m -> 0 <= round_nearest_even m l.
Proof.
  intros Hm; destruct l as [|[]]; simpl; try lia.
  destruct (Z.even m); lia.
Qed.

Lemma binary_round_aux_sign s m e l :
  0 <= m -> sign_is s (binary_round_aux prec emax s m e l).
Proof.
  intros Hm; unfold binary_round_aux.
  pose proof (shr_fexp_nonneg m e l Hm) as H1.
  destruct (shr_fexp prec emax m e l) as [r1 e1]; simpl in H1.
  pose proof (shr_fexp_nonneg (round_nearest_even (shr_m r1) (loc_of_shr_record r1))
                e1 loc_Exact (round_nearest_even_nonneg _ _ H1)) as H2.
  destruct (shr_fexp prec emax _ e1 loc_Exact) as [r2 e2]; simpl in H2.
  destruct (shr_m r2) as [|p|p]; simpl.
  - reflexivity.
  - destruct (Z.leb _ _); reflexivity.
  - lia.
Qed.

Lemma binary_normalize_nonneg m e :
  0 <= m -> sf_nonneg (binary_normalize prec emax m e false).
Proof.
  intros Hm; destruct m as [|p|p]; simpl; [exact I| |lia].
  unfold binary_round.
  destruct (shl_align p e _) as [mz ez].
  pose proof (binary_round_aux_sign false (Zpos mz) ez loc_Exact ltac:(lia)) as Hs.
  destruct (binary_round_aux prec emax false (Zpos mz) ez loc_Exact) as [s|s| |s m' e'];
    simpl in *; subst; auto.
Qed.

Lemma digits2_pos_bounds m :
  2 ^ (Zpos (digits2_pos m) - 1) <= Zpos m < 2 ^ Zpos (digits2_pos m).
Proof.
  induction m as [p IH|p IH|]; simpl digits2_pos.
  - rewrite Pos2Z.inj_succ, (Pos2Z.inj_xI p).
    replace (Z.succ (Zpos (digits2_pos p)) - 1) with (Zpos (digits2_pos p)) by lia.
    rewrite Z.pow_succ_r by lia.
    assert (2 ^ Zpos (digits2_pos p) = 2 * 2 ^ (Zpos (digits2_pos p) - 1)) as E.
    { rewrite <- Z.pow_succ_r by lia. f_equal; lia. }
    lia.
  - rewrite Pos2Z.inj_succ, (Pos2Z.inj_xO p).
    replace (Z.succ (Zpos (digits2_pos p)) - 1) with (Zpos (digits2_pos p)) by lia.
    rewrite Z.pow_succ_r by lia.
    assert (2 ^ Zpos (digits2_pos p) = 2 * 2 ^ (Zpos (digits2_pos p) - 1)) as E.
    { rewrite <- Z.pow_succ_r by lia. f_equal; lia. }
    lia.
  - simpl; lia.
Qed.

Lemma iter_xO_mul m p : Zpos (Pos.iter xO m p) = Zpos m * 2 ^ Zpos p.
Proof.
  induction p as [|p IH] using Pos.peano_ind.
  - simpl; lia.
  - rewrite Pos.iter_succ, Pos2Z.inj_xO, IH, Pos2Z.inj_succ, Z.pow_succ_r by lia.
    lia.
Qed.

Lemma shl_align_same m e : shl_align m e e = (m, e).
Proof. unfold shl_align; rewrite Z.sub_diag; reflexivity. Qed.

Lemma shl_align_lt m e e' :
  e' < e -> Zpos (fst (shl_align m e e')) = Zpos m * 2 ^ (e - e').
Proof.
  intros Hlt; unfold shl_align.
  destruct (e' - e) as [|p|p] eqn:Hd; try lia.
  simpl fst; rewrite iter_xO_mul; do 2 f_equal; lia.
Qed.

(** A bounded (canonical) binary64 mantissa has at most 53 digits, and
    exactly 53 above the least exponent. *)
Lemma bounded_digits m e :
  bounded prec emax m e = true ->
  -1074 <= e /\ Zpos (digits2_pos m) <= 53 /\
  (-1074 < e -> Zpos (digits2_pos m) = 53).
Proof.
  unfold bounded, canonical_mantissa, fexp, SpecFloat.emin, prec, emax.
  intros H; apply andb_prop in H as [H _]; apply Z.eqb_eq in H; lia.
Qed.

Lemma Prim2SF_zero : Prim2SF 0%float = S754_zero false.
Proof. reflexivity. Qed.

Lemma Prim2SF_infinity : Prim2SF infinity = S754_infinity false.
Proof. reflexivity. Qed.

Lemma nonneg_spec x : nonneg x = true <-> sf_nonneg (Prim2SF x).
Proof.
  unfold nonneg; rewrite leb_spec, Prim2SF_zero.
  destruct (Prim2SF x) as [[]|[]| |[] m e]; simpl; split; intros H;
    solve [exact I | reflexivity | discriminate | contradiction].
Qed.

Lemma amount_ok_spec a :
  amount_ok a = true -> exists m e, Prim2SF a = S754_finite false m e.
Proof.
  unfold amount_ok; intros H; apply andb_prop in H as [H1 H2].
  rewrite ltb_spec, Prim2SF_zero in H1; rewrite ltb_spec, Prim2SF_infinity in H2.
  destruct (Prim2SF a) as [[]|[]| |[] m e]; try discriminate; eauto.
Qed.

Lemma gt_0_spec a :
  PrimFloat.ltb 0%float a = true ->
  Prim2SF a = S754_infinity false \/ exists m e, Prim2SF a = S754_finite false m e.
Proof.
  rewrite ltb_spec, Prim2SF_zero; intros H.
  destruct (Prim2SF a) as [[]|[]| |[] m e]; try discriminate; eauto.
Qed.

(** [balance += amount] keeps a non-negative balance non-negative. *)
Lemma add_nonneg x a :
  nonneg x = true -> PrimFloat.ltb 0%float a = true -> nonneg (x + a)%float = true.
Proof.
  rewrite !nonneg_spec, add_spec; intros Hx Ha.
  destruct (gt_0_spec a Ha) as [Ea|(ma & ea & Ea)]; rewrite Ea;
    destruct (Prim2SF x) as [[]|[]| |[] mx ex]; try contradiction;
    try exact I.
  unfold SF64add, SFadd, cond_Zopp.
  apply binary_normalize_nonneg; lia.
Qed.

(** [balance -= amount] after the check [amount > balance] failed keeps a
    non-negative balance non-negative, for a finite amount. *)
Lemma sub_nonneg x a :
  nonneg x = true -> amount_ok a = true -> PrimFloat.ltb x a = false ->
  nonneg (x - a)%float = true.
Proof.
  rewrite !nonneg_spec, sub_spec, ltb_spec; intros Hx Ha Hlt.
  destruct (amount_ok_spec a Ha) as (ma & ea & Ea).
  pose proof (Prim2SF_valid a) as Va; pose proof (Prim2SF_valid x) as Vx.
  rewrite Ea in *.
  destruct (Prim2SF x) as [[]|[]| |[] mx ex]; try contradiction;
    try discriminate; try exact I.
  simpl in Va, Vx.
  apply bounded_digits in Va as (Ea1 & Ea2 & _).
  apply bounded_digits in Vx as (Ex1 & Ex2 & Ex3).
  unfold SFltb, SFcompare in Hlt.
  unfold SF64sub, SFsub, cond_Zopp.
  apply binary_normalize_nonneg.
  destruct (Z.compare_spec ex ea) as [E|E|E].
  - subst ea; rewrite Z.min_id, !shl_align_same; simpl fst.
    destruct (Pos.compare_cont Eq mx ma) eqn:C; try discriminate.
    + apply Pos.compare_eq_iff in C; subst; lia.
    + change (Pos.compare mx ma = Gt) in C. apply Pos.compare_gt_iff in C. lia.
  - discriminate.
  - rewrite Z.min_r by lia.
    rewrite shl_align_lt by lia.
    rewrite shl_align_same; simpl fst.
    pose proof (digits2_pos_bounds mx) as Bx; pose proof (digits2_pos_bounds ma) as Ba.
    rewrite Ex3 in Bx by lia.
    assert (2 ^ Zpos (digits2_pos ma) <= 2 ^ 53) by (apply Z.pow_le_mono_r; lia).
    assert (2 <= 2 ^ (ex - ea)).
    { replace 2 with (2 ^ 1) at 1 by reflexivity. apply Z.pow_le_mono_r; lia. }
    change (53 - 1) with 52 in Bx.
    assert (2 ^ 53 = 2 * 2 ^ 52) by reflexivity.
    nia.
Qed.

(** [balance -= amount] with [amount] equal to a finite balance gives +0. *)
Lemma sub_self a : amount_ok a = true -> (a - a)%float = 0%float.
Proof.
  intros Ha; apply Prim2SF_inj; rewrite sub_spec, Prim2SF_zero.
  destruct (amount_ok_spec a Ha) as (ma & ea & ->).
  unfold SF64sub, SFsub, cond_Zopp; rewrite Z.sub_diag; reflexivity.
Qed.

End Binary64.

(** ** Facts about the services, for every number type *)

Section ServiceFacts.
Context {N : Type} `{PyNum N}.

Lemma update_wallets_ids wid f (ws : list (Wallet N)) :
  map wallet_id (update_wallets wid f ws) = map wallet_id ws.
Proof.
  induction ws as [|w ws IH]; simpl; [reflexivity|].
  destruct (Z.eqb (wallet_id w) wid); simpl; f_equal; exact IH.
Qed.

Lemma unique_id_same (ws : list (Wallet N)) w1 w2 :
  NoDup (map wallet_id ws) -> In w1 ws -> In w2 ws ->
  wallet_id w1 = wallet_id w2 -> w1 = w2.
Proof.
  induction ws as [|w ws IH]; simpl; [tauto|].
  intros Hnd Hi1 Hi2 Heq; inversion Hnd as [|? ? Hnotin Hnd']; subst.
  destruct Hi1 as [<-|Hi1], Hi2 as [<-|Hi2]; auto.
  - exfalso; apply Hnotin; rewrite Heq; apply in_map, Hi2.
  - exfalso; apply Hnotin; rewrite <- Heq; apply in_map, Hi1.
Qed.

Lemma find_update_unique (ws : list (Wallet N)) w f :
  NoDup (map wallet_id ws) -> In w ws ->
  find (fun w' => Z.eqb (wallet_id w') (wallet_id w))
       (update_wallets (wallet_id w) f ws)
  = Some (mkWallet (wallet_id w) (wallet_user_id w) (f (balance w))).
Proof.
  induction ws as [|w0 ws IH]; simpl; [tauto|].
  intros Hnd Hin; inversion Hnd as [|? ? Hnotin Hnd']; subst.
  destruct (Z.eqb (wallet_id w0) (wallet_id w)) eqn:E; simpl.
  - rewrite E. apply Z.eqb_eq in E.
    assert (w0 = w) as ->.
    { apply (unique_id_same (w0 :: ws)); simpl; auto. }
    reflexivity.
  - rewrite E. destruct Hin as [->|Hin].
    + rewrite Z.eqb_refl in E; discriminate.
    + apply IH; auto.
Qed.

Lemma update_wallets_twice wid f g (ws : list (Wallet N)) :
  update_wallets wid g (update_wallets wid f ws) = update_wallets wid (fun b => g (f b)) ws.
Proof.
  induction ws as [|w ws IH]; simpl; [reflexivity|].
  destruct (Z.eqb (wallet_id w) wid) eqn:E; simpl; rewrite ?E, IH; reflexivity.
Qed.

Lemma first_wallet_of_in uid (db : DB N) w :
  first_wallet_of uid db = Some w -> In w (wallets db) /\ wallet_user_id w = uid.
Proof.
  unfold first_wallet_of; intros Hf; apply find_some in Hf as [Hi He].
  split; [exact Hi | apply Z.eqb_eq, He].
Qed.

Ltac unfold_services :=
  unfold exec_request, deposit_funds, withdraw_funds, buy_goods, transfer_funds,
    get_balance, validate_user_status, get_wallet_info, find_user, set_balance,
    add_all, refresh_balance, bind, ret, raise.

Lemma withdraw_funds_eq (u : User) (a : N) (db : DB N) :
  withdraw_funds u a db =
  if active u && verified u then
    match first_wallet_of (user_id u) db with
    | None => (Err (WalletNotFound (user_id u)), db)
    | Some w =>
      if py_gt a (balance w) then (Err (InsufficientFunds (balance w)), db)
      else
        let ws := update_wallets (wallet_id w) (fun b => py_sub b a) (wallets db) in
        (Ok (a, match find (fun w' => Z.eqb (wallet_id w') (wallet_id w)) ws with
                | Some w' => balance w' | None => balance w end),
         mkDB (users db) ws
              (transactions db ++ [mkTransaction (wallet_id w) Withdraw a None]))
    end
  else (Err (UserStatus (if negb (active u) then "active" else "verified")), db).
Proof.
  unfold_services; unfold first_wallet_of, update_wallets.
  destruct (active u && verified u); [|reflexivity].
  destruct (find _ (wallets db)) as [w|]; [|reflexivity].
  destruct (py_gt a (balance w)); reflexivity.
Qed.

Lemma buy_goods_eq (u : User) (a : N) (c : string) (db : DB N) :
  buy_goods u a c db =
  if active u && verified u then
    match first_wallet_of (user_id u) db with
    | None => (Err (WalletNotFound (user_id u)), db)
    | Some w =>
      if py_gt a (balance w) then (Err (InsufficientFunds (balance w)), db)
      else
        let ws := update_wallets (wallet_id w) (fun b => py_sub b a) (wallets db) in
        (Ok (a, match find (fun w' => Z.eqb (wallet_id w') (wallet_id w)) ws with
                | Some w' => balance w' | None => balance w end),
         mkDB (users db) ws
              (transactions db ++ [mkTransaction (wallet_id w) Purchase a (Some c)]))
    end
  else (Err (UserStatus (if negb (active u) then "active" else "verified")), db).
Proof.
  unfold_services; unfold first_wallet_of, update_wallets.
  destruct (active u && verified u); [|reflexivity].
  destruct (find _ (wallets db)) as [w|]; [|reflexivity].
  destruct (py_gt a (balance w)); reflexivity.
Qed.

Lemma deposit_funds_eq (u : User) (a : N) (db : DB N) :
  deposit_funds u a db =
  if active u && verified u then
    match first_wallet_of (user_id u) db with
    | None => (Err (WalletNotFound (user_id u)), db)
    | Some w =>
        let ws := update_wallets (wallet_id w) (fun b => py_add b a) (wallets db) in
        (Ok (a, match find (fun w' => Z.eqb (wallet_id w') (wallet_id w)) ws with
                | Some w' => balance w' | None => balance w end),
         mkDB (users db) ws
              (transactions db ++ [mkTransaction (wallet_id w) Deposit a None]))
    end
  else (Err (UserStatus (if negb (active u) then "active" else "verified")), db).
Proof.
  unfold_services; unfold first_wallet_of, update_wallets.
  destruct (active u && verified u); [|reflexivity].
  destruct (find _ (wallets db)) as [w|]; reflexivity.
Qed.

Lemma transfer_funds_eq (u : User) (a : N) (rid : Z) (c : string) (db : DB N) :
  transfer_funds u a rid c db =
  if active u && verified u then
    match first_wallet_of (user_id u) db with
    | None => (Err (WalletNotFound (user_id u)), db)
    | Some w =>
      if py_gt a (balance w) then (Err (InsufficientFunds (balance w)), db)
      else
        match first_user rid db with
        | None => (Err (RecipientNotFound rid), db)
        | Some r =>
          if negb (active r) then (Err RecipientInactive, db)
          else if negb (verified r) then (Err RecipientUnverified, db)
          else
            match first_wallet_of rid db with
            | None => (Err (WalletNotFound rid), db)
            | Some rw =>
              let ws := update_wallets (wallet_id rw) (fun b => py_add b a)
                          (update_wallets (wallet_id w) (fun b => py_sub b a) (wallets db)) in
              (Ok (a, match find (fun w' => Z.eqb (wallet_id w') (wallet_id w)) ws with
                      | Some w' => balance w' | None => balance w end),
               mkDB (users db) ws
                    (transactions db ++
                     [mkTransaction (wallet_id w) Transfer a (Some c);
                      mkTransaction (wallet_id rw) Receive a None]))
            end
        end
    end
  else (Err (UserStatus (if negb (active u) then "active" else "verified")), db).
Proof.
  unfold_services; unfold first_wallet_of, first_user, update_wallets.
  destruct (active u && verified u); [|reflexivity].
  destruct (find _ (wallets db)) as [w|]; [|reflexivity].
  destruct (py_gt a (balance w)); [reflexivity|].
  destruct (find _ (users db)) as [r|]; [|reflexivity].
  destruct (negb (active r)); [reflexivity|].
  destruct (negb (verified r)); [reflexivity|].
  destruct (find _ (wallets db)) as [rw|]; reflexivity.
Qed.

Lemma get_balance_eq (u : User) (db : DB N) :
  get_balance u db =
  if active u && verified u then
    match first_wallet_of (user_id u) db with
    | None => (Err (WalletNotFound (user_id u)), db)
    | Some w => (Ok (balance w), db)
    end
  else (Err (UserStatus (if negb (active u) then "active" else "verified")), db).
Proof.
  unfold_services; unfold first_wallet_of.
  destruct (active u && verified u); [|reflexivity].
  destruct (find _ (wallets db)); reflexivity.
Qed.

End ServiceFacts.

(** ** Failed requests leave the store as it was *)

Section Failures.
Context {N : Type} `{PyNum N}.

Lemma exec_request_err (r : Request N) (db : DB N) :
  match exec_request r db with
  | (Err _, db') => db' = db
  | (Ok _, _) => True
  end.
Proof.
  destruct r as [u a|u a|u a c|u a rid c|u]; unfold exec_request, bind, ret;
    rewrite ?deposit_funds_eq, ?withdraw_funds_eq, ?buy_goods_eq,
      ?transfer_funds_eq, ?get_balance_eq;
    repeat match goal with
           | |- context [if ?b then _ else _] => destruct b
           | |- context [match ?x with Some _ => _ | None => _ end] => destruct x
           end; simpl; trivial.
Qed.

End Failures.

(** ** Updating one wallet row *)

Section Updates.
Context {N : Type}.

Lemma Forall_update_all (P : N -> Prop) wid f (ws : list (Wallet N)) :
  (forall b, P b -> P (f b)) ->
  Forall (fun w => P (balance w)) ws ->
  Forall (fun w => P (balance w)) (update_wallets wid f ws).
Proof.
  intros Hf Hws; unfold update_wallets; apply Forall_map.
  eapply Forall_impl; [|exact Hws]; intros w Hw; simpl.
  destruct (Z.eqb (wallet_id w) wid); simpl; auto.
Qed.

Lemma Forall_update_one (P : N -> Prop) w f (ws : list (Wallet N)) :
  NoDup (map wallet_id ws) -> In w ws ->
  P (f (balance w)) ->
  Forall (fun w' => P (balance w')) ws ->
  Forall (fun w' => P (balance w')) (update_wallets (wallet_id w) f ws).
Proof.
  intros Hnd Hin Hf Hws; unfold update_wallets; apply Forall_map.
  apply Forall_forall; intros w' Hin'.
  destruct (Z.eqb (wallet_id w') (wallet_id w)) eqn:E; simpl.
  - apply Z.eqb_eq in E.
    rewrite (unique_id_same ws w' w Hnd Hin' Hin E); exact Hf.
  - rewrite Forall_forall in Hws; apply Hws, Hin'.
Qed.

Lemma Forall_firstn_prefix {A} (P : A -> Prop) k (l : list A) :
  Forall P l -> Forall P (firstn k l).
Proof.
  revert l; induction k as [|k IH]; intros [|x l] Hl; simpl; auto.
  inversion Hl; subst; constructor; auto.
Qed.

End Updates.

(** ** Non-negativity of binary64 balances, one request at a time *)

Lemma exec_request_nonneg (r : Request float) (db : DB float) :
  wallet_ids_unique db -> balances_nonneg db -> request_amount_ok r = true ->
  wallet_ids_unique (snd (exec_request r db)) /\
  balances_nonneg (snd (exec_request r db)).
Proof.
  intros Hu Hn Ha.
  destruct r as [u a|u a|u a c|u a rid c|u]; simpl in Ha; unfold exec_request, bind, ret;
    rewrite ?deposit_funds_eq, ?withdraw_funds_eq, ?buy_goods_eq,
      ?transfer_funds_eq, ?get_balance_eq;
    (destruct (active u && verified u); [|simpl; auto]);
    (destruct (first_wallet_of (user_id u) db) as [w|] eqn:Hw; [|simpl; auto]);
    try (destruct (first_wallet_of_in _ _ _ Hw) as [Hin _]);
    unfold amount_ok in Ha; try (apply andb_prop in Ha as [Ha0 Ha1]).
  - (* deposit *)
    simpl; split.
    + unfold wallet_ids_unique; simpl; rewrite update_wallets_ids; exact Hu.
    + unfold balances_nonneg; simpl.
      apply (Forall_update_all (fun b => nonneg b = true)); [|exact Hn].
      intros b Hb; apply Binary64.add_nonneg; assumption.
  - (* withdraw *)
    destruct (py_gt a (balance w)) eqn:Hgt; simpl; [auto|split].
    + unfold wallet_ids_unique; simpl; rewrite update_wallets_ids; exact Hu.
    + unfold balances_nonneg; simpl.
      apply (Forall_update_one (fun b => nonneg b = true)); auto.
      apply Binary64.sub_nonneg; [| unfold amount_ok; rewrite Ha0, Ha1; reflexivity | exact Hgt].
      unfold balances_nonneg in Hn; rewrite Forall_forall in Hn; apply Hn, Hin.
  - (* purchase *)
    destruct (py_gt a (balance w)) eqn:Hgt; simpl; [auto|split].
    + unfold wallet_ids_unique; simpl; rewrite update_wallets_ids; exact Hu.
    + unfold balances_nonneg; simpl.
      apply (Forall_update_one (fun b => nonneg b = true)); auto.
      apply Binary64.sub_nonneg; [| unfold amount_ok; rewrite Ha0, Ha1; reflexivity | exact Hgt].
      unfold balances_nonneg in Hn; rewrite Forall_forall in Hn; apply Hn, Hin.
  - (* transfer *)
    destruct (py_gt a (balance w)) eqn:Hgt; [simpl; auto|].
    destruct (first_user rid db) as [r|]; [|simpl; auto].
    destruct (negb (active r)); [simpl; auto|].
    destruct (negb (verified r)); [simpl; auto|].
    destruct (first_wallet_of rid db) as [rw|]; simpl; [split|auto].
    + unfold wallet_ids_unique; simpl; rewrite !update_wallets_ids; exact Hu.
    + unfold balances_nonneg; simpl.
      apply (Forall_update_all (fun b => nonneg b = true)).
      * intros b Hb; apply Binary64.add_nonneg; assumption.
      * apply (Forall_update_one (fun b => nonneg b = true)); auto.
        apply Binary64.sub_nonneg; [| unfold amount_ok; rewrite Ha0, Ha1; reflexivity | exact Hgt].
        unfold balances_nonneg in Hn; rewrite Forall_forall in Hn; apply Hn, Hin.
  - (* get_balance *)
    simpl; auto.
Qed.

Lemma run_nonneg (rs : list (Request float)) (db : DB float) :
  wallet_ids_unique db -> balances_nonneg db ->
  Forall (fun r => request_amount_ok r = true) rs ->
  wallet_ids_unique (fst (run rs db)) /\ balances_nonneg (fst (run rs db)).
Proof.
  revert db; induction rs as [|r rs IH]; intros db Hu Hn Hrs; simpl; [auto|].
  inversion Hrs as [|? ? Hr Hrs']; subst.
  pose proof (exec_request_nonneg r db Hu Hn Hr) as [Hu' Hn'].
  destruct (exec_request r db) as [res db1]; simpl in *.
  specialize (IH db1 Hu' Hn' Hrs').
  destruct (run rs db1) as [dbf cs]; exact IH.
Qed.

(** ** Binary64 arithmetic on integer-valued floats *)

Module Exact.

Lemma pow2_pos k : 0 <= k -> 0 < 2 ^ k.
Proof. intros; apply Z.pow_pos_nonneg; lia. Qed.

Lemma iter_shr_exact (k : positive) (m : Z) :
  0 < m ->
  iter_pos shr_1 k {| shr_m := m * 2 ^ Zpos k; shr_r := false; shr_s := false |} =
  {| shr_m := m; shr_r := false; shr_s := false |}.
Proof.
  revert m; induction k as [k IH|k IH|]; intros m Hm.
  - assert (E : m * 2 ^ Zpos k~1 = (m * 2 ^ Zpos k * 2 ^ Zpos k) * 2).
    { replace (Zpos k~1) with (Zpos k + Zpos k + 1) by lia.
      rewrite !Z.pow_add_r by lia; change (2 ^ 1) with 2; ring. }
    rewrite E; cbn [iter_pos].
    destruct (m * 2 ^ Zpos k * 2 ^ Zpos k) as [|q|q] eqn:Eq.
    + pose proof (pow2_pos (Zpos k) ltac:(lia)); nia.
    + replace (Zpos q * 2) with (Zpos q~0) by lia; simpl shr_1.
      rewrite <- Eq, IH, IH; [reflexivity|lia|pose proof (pow2_pos (Zpos k) ltac:(lia)); nia].
    + pose proof (pow2_pos (Zpos k) ltac:(lia)); nia.
  - assert (E : m * 2 ^ Zpos k~0 = (m * 2 ^ Zpos k) * 2 ^ Zpos k).
    { replace (Zpos k~0) with (Zpos k + Zpos k) by lia.
      rewrite !Z.pow_add_r by lia; ring. }
    rewrite E; cbn [iter_pos]; rewrite IH, IH; [reflexivity|lia|pose proof (pow2_pos (Zpos k) ltac:(lia)); nia].
  - destruct m as [|q|q]; try lia.
    cbn [iter_pos]; replace (Zpos q * 2 ^ 1) with (Zpos q~0) by (simpl; lia); reflexivity.
Qed.

Lemma digits2_pos_unique (m : positive) (d : Z) :
  2 ^ (d - 1) <= Zpos m < 2 ^ d -> Zpos (digits2_pos m) = d.
Proof.
  intros [H1 H2]; pose proof (Binary64.digits2_pos_bounds m) as [B1 B2].
  set (d' := Zpos (digits2_pos m)) in *.
  assert (Hd : 0 < d') by (unfold d'; lia).
  destruct (Z.lt_trichotomy d' d) as [Hlt|[Heq|Hgt]]; [|exact Heq|].
  - assert (2 ^ d' <= 2 ^ (d - 1)) by (apply Z.pow_le_mono_r; lia). lia.
  - assert (0 < d) by (destruct (Z.le_gt_cases d 0) as [Hle|]; [|lia];
      assert (2 ^ d <= 1) by (destruct (Z.eq_dec d 0) as [->|]; [reflexivity|rewrite Z.pow_neg_r by lia; lia]);
      lia).
    assert (2 ^ d <= 2 ^ (d' - 1)) by (apply Z.pow_le_mono_r; lia). lia.
Qed.

Lemma digits2_pos_shift (m : positive) (k : Z) (q : positive) :
  0 <= k -> Zpos q = Zpos m * 2 ^ k ->
  Zpos (digits2_pos q) = Zpos (digits2_pos m) + k.
Proof.
  intros Hk Hq; apply digits2_pos_unique.
  pose proof (Binary64.digits2_pos_bounds m) as [B1 B2].
  rewrite Hq.
  replace (Zpos (digits2_pos m) + k - 1) with ((Zpos (digits2_pos m) - 1) + k) by lia.
  rewrite !Z.pow_add_r by lia.
  pose proof (pow2_pos k Hk). nia.
Qed.

Lemma sf_int_finite (s : bool) (q : positive) (f W : Z) :
  f <= 0 -> Zpos q = W * 2 ^ (- f) -> sf_int (S754_finite s q f) = Some (cond_Zopp s W).
Proof.
  intros Hf Hq; unfold sf_int.
  destruct (Z.eq_dec f 0) as [->|Hne].
  - assert (E : Zpos q = W) by (rewrite Hq; simpl; lia).
    change (Z.leb 0 0) with true; cbv iota.
    rewrite <- E, Z.pow_0_r, Z.mul_1_r; reflexivity.
  - replace (Z.leb 0 f) with false by (symmetry; apply Z.leb_gt; lia).
    assert (Hp : 0 < 2 ^ (- f)) by (apply pow2_pos; lia).
    rewrite Hq, Z.mod_mul, Z.div_mul by lia; reflexivity.
Qed.

Lemma fexp_b64 z : fexp prec emax z = Z.max (z - 53) (-1074).
Proof. reflexivity. Qed.

Lemma round_aux_exact (s : bool) (m q : positive) (e k : Z) :
  0 <= k -> fexp prec emax (Zpos (digits2_pos m) + e) = e + k ->
  Zpos m = Zpos q * 2 ^ k -> e + k <= 971 ->
  binary_round_aux prec emax s (Zpos m) e loc_Exact = S754_finite s q (e + k).
Proof.
  intros Hk Hf Hm Hb.
  assert (Hd : Zpos (digits2_pos m) = Zpos (digits2_pos q) + k)
    by exact (digits2_pos_shift q k m Hk Hm).
  unfold binary_round_aux, shr_fexp; simpl Zdigits2; simpl shr_record_of_loc.
  rewrite Hf; replace (e + k - e) with k by lia.
  assert (Hs : shr {| shr_m := Zpos m; shr_r := false; shr_s := false |} e k =
               ({| shr_m := Zpos q; shr_r := false; shr_s := false |}, e + k)).
  { unfold shr; destruct k as [|kp|kp]; [|rewrite Hm, iter_shr_exact by lia; reflexivity|lia].
    rewrite Z.add_0_r, Hm; simpl; rewrite Pos.mul_1_r; reflexivity. }
  rewrite Hs; simpl loc_of_shr_record; simpl round_nearest_even; simpl Zdigits2.
  replace (Zpos (digits2_pos q) + (e + k)) with (Zpos (digits2_pos m) + e) by lia.
  rewrite Hf, Z.sub_diag; simpl shr; cbn [shr_m].
  replace (Z.leb (e + k) (emax - prec)) with true by (symmetry; apply Z.leb_le; unfold emax, prec; simpl; lia).
  reflexivity.
Qed.

Lemma digits_bound (p : positive) (e W : Z) :
  (if Z.leb 0 e then W = Zpos p * 2 ^ e else Zpos p = W * 2 ^ (- e)) -> W < 2 ^ 53 ->
  Zpos (digits2_pos p) + e <= 53.
Proof.
  intros HW Hlt; pose proof (Binary64.digits2_pos_bounds p) as [B1 _].
  destruct (Z.leb_spec 0 e) as [He|He].
  - destruct (Z.le_gt_cases (Zpos (digits2_pos p) + e) 53) as [|Hc]; [assumption|exfalso].
    assert (2 ^ 53 <= 2 ^ (Zpos (digits2_pos p) - 1 + e)) by (apply Z.pow_le_mono_r; lia).
    rewrite Z.pow_add_r in H by lia.
    pose proof (pow2_pos e He). nia.
  - destruct (Z.le_gt_cases (Zpos (digits2_pos p) + e) 53) as [|Hc]; [assumption|exfalso].
    assert (2 ^ (53 - e) <= 2 ^ (Zpos (digits2_pos p) - 1)) by (apply Z.pow_le_mono_r; lia).
    replace (53 - e) with (53 + - e) in H by lia.
    rewrite Z.pow_add_r in H by lia.
    pose proof (pow2_pos (- e) ltac:(lia)). nia.
Qed.

Lemma round_int (s : bool) (p : positive) (e W : Z) :
  (if Z.leb 0 e then W = Zpos p * 2 ^ e else Zpos p = W * 2 ^ (- e)) -> W < 2 ^ 53 ->
  sf_int (binary_round prec emax s p e) = Some (cond_Zopp s W).
Proof.
  intros HW Hlt.
  pose proof (digits_bound p e W HW Hlt) as Hd.
  assert (HW0 : 0 < W).
  { destruct (Z.leb_spec 0 e) as [He|He].
    - subst W; pose proof (pow2_pos e He); nia.
    - destruct (Z.le_gt_cases W 0); [|lia].
      pose proof (pow2_pos (- e) ltac:(lia)); nia. }
  set (f := fexp prec emax (Zpos (digits2_pos p) + e)).
  assert (Hf : f <= 0) by (unfold f; rewrite fexp_b64; lia).
  unfold binary_round; fold f.
  destruct (Z.lt_ge_cases f e) as [Hfe|Hfe].
  - (* the mantissa is widened to the exponent [f] *)
    assert (Ha : shl_align p e f = (fst (shl_align p e f), f)).
    { unfold shl_align; destruct (f - e) eqn:E; try lia; reflexivity. }
    pose proof (Binary64.shl_align_lt p e f Hfe) as Hmz.
    rewrite Ha.
    set (mz := fst (shl_align p e f)) in *.
    assert (Hq : Zpos mz = W * 2 ^ (- f)).
    { rewrite Hmz; destruct (Z.leb_spec 0 e) as [He|He].
      - rewrite HW; replace (e - f) with (e + - f) by lia.
        rewrite Z.pow_add_r by lia; ring.
      - rewrite HW, <- Z.mul_assoc, <- Z.pow_add_r by lia; do 2 f_equal; lia. }
    rewrite (round_aux_exact s mz mz f 0); [rewrite Z.add_0_r; apply sf_int_finite; assumption|lia| | |lia].
    + rewrite (digits2_pos_shift p (e - f) mz) by (lia || exact Hmz).
      rewrite Z.add_0_r; replace (Zpos (digits2_pos p) + (e - f) + f) with (Zpos (digits2_pos p) + e) by lia.
      reflexivity.
    + rewrite Z.mul_1_r; reflexivity.
  - assert (Ha : shl_align p e f = (p, e)).
    { unfold shl_align; destruct (f - e) eqn:E; try lia; reflexivity. }
    rewrite Ha.
    assert (Hq : 0 < W * 2 ^ (- f)) by (pose proof (pow2_pos (- f) ltac:(lia)); nia).
    destruct (W * 2 ^ (- f)) as [|q|q] eqn:Eq; try lia.
    assert (Hp : Zpos p = Zpos q * 2 ^ (f - e)).
    { destruct (Z.leb_spec 0 e) as [He|He].
      - rewrite <- Eq, HW.
        replace (f - e) with 0 by lia; replace (- f) with 0 by lia; replace e with 0 by lia.
        simpl; lia.
      - rewrite HW, <- Eq, <- Z.mul_assoc, <- Z.pow_add_r by lia; do 2 f_equal; lia. }
    replace f with (e + (f - e)) by lia.
    rewrite (round_aux_exact s p q e (f - e)); [|lia|unfold f; f_equal; lia|exact Hp|lia].
    apply sf_int_finite; [lia|].
    rewrite <- Eq; do 2 f_equal; lia.
Qed.

Lemma normalize_int (M e V : Z) :
  (if Z.leb 0 e then V = M * 2 ^ e else M = V * 2 ^ (- e)) -> Z.abs V < 2 ^ 53 ->
  sf_int (binary_normalize prec emax M e false) = Some V.
Proof.
  intros HV Hlt; destruct M as [|p|p]; simpl binary_normalize.
  - simpl; f_equal.
    destruct (Z.leb_spec 0 e) as [He|He]; [lia|].
    pose proof (pow2_pos (- e) ltac:(lia)); nia.
  - apply (round_int false p e V); [|lia].
    destruct (Z.leb 0 e); exact HV.
  - replace (Some V) with (Some (cond_Zopp true (- V))) by (simpl; f_equal; lia).
    apply (round_int true p e (- V)); [|lia].
    destruct (Z.leb 0 e).
    + replace (Zneg p) with (- Zpos p) in HV by reflexivity. lia.
    + replace (Zneg p) with (- Zpos p) in HV by reflexivity. lia.
Qed.

Lemma sf_int_align (s : bool) (m : positive) (e n ez : Z) :
  sf_int (S754_finite s m e) = Some n -> ez <= e ->
  if Z.leb 0 ez then n = cond_Zopp s (Zpos (fst (shl_align m e ez))) * 2 ^ ez
  else cond_Zopp s (Zpos (fst (shl_align m e ez))) = n * 2 ^ (- ez).
Proof.
  intros H Hle.
  assert (Ha : Zpos (fst (shl_align m e ez)) = Zpos m * 2 ^ (e - ez)).
  { destruct (Z.eq_dec ez e) as [->|Hne].
    - rewrite Binary64.shl_align_same, Z.sub_diag; simpl; lia.
    - apply Binary64.shl_align_lt; lia. }
  rewrite Ha; unfold sf_int in H.
  assert (Hc : forall x y, cond_Zopp s x * y = cond_Zopp s (x * y)) by (destruct s; simpl; intros; ring).
  destruct (Z.leb_spec 0 e) as [He|He].
  - assert (Hn : n = cond_Zopp s (Zpos m * 2 ^ e)) by congruence; subst n.
    destruct (Z.leb_spec 0 ez) as [Hz|Hz].
    + rewrite Hc, <- Z.mul_assoc, <- Z.pow_add_r by lia.
      replace (e - ez + ez) with e by lia; reflexivity.
    + rewrite Hc, <- Z.mul_assoc, <- Z.pow_add_r by lia.
      replace (e + - ez) with (e - ez) by lia; reflexivity.
  - destruct (Z.eqb_spec (Zpos m mod 2 ^ (- e)) 0) as [Hm|]; [|discriminate].
    assert (Hn : n = cond_Zopp s (Zpos m / 2 ^ (- e))) by congruence; subst n.
    replace (Z.leb 0 ez) with false by (symmetry; apply Z.leb_gt; lia).
    rewrite Hc; apply (f_equal (cond_Zopp s)).
    pose proof (pow2_pos (- e) ltac:(lia)) as Hp.
    pose proof (Z.div_mod (Zpos m) (2 ^ (- e)) ltac:(lia)) as Hd; rewrite Hm, Z.add_0_r in Hd.
    remember (Zpos m / 2 ^ (- e)) as q.
    replace (- ez) with (- e + (e - ez)) by lia.
    rewrite Z.pow_add_r by lia; rewrite Hd at 1; ring.
Qed.

Lemma sf_int_negb (s : bool) (m : positive) (e n : Z) :
  sf_int (S754_finite s m e) = Some n -> sf_int (S754_finite (negb s) m e) = Some (- n).
Proof.
  unfold sf_int; destruct (Z.leb 0 e).
  - intros H; injection H as <-; destruct s; simpl; f_equal; lia.
  - destruct (Z.eqb _ 0); [|discriminate].
    intros H; injection H as <-; destruct s; simpl; f_equal; lia.
Qed.

Lemma sf_int_add (x y : spec_float) (n m : Z) :
  sf_int x = Some n -> sf_int y = Some m -> Z.abs (n + m) < 2 ^ 53 ->
  sf_int (SFadd prec emax x y) = Some (n + m).
Proof.
  intros Hx Hy Hb.
  destruct x as [sx|sx| |sx mx ex]; try discriminate;
    destruct y as [sy|sy| |sy my ey]; try discriminate.
  - simpl in Hx, Hy; injection Hx as <-; injection Hy as <-.
    destruct sx, sy; reflexivity.
  - simpl in Hx; injection Hx as <-; exact Hy.
  - simpl in Hy; injection Hy as <-; rewrite Z.add_0_r; exact Hx.
  - change (SFadd prec emax (S754_finite sx mx ex) (S754_finite sy my ey)) with
      (binary_normalize prec emax
         (cond_Zopp sx (Zpos (fst (shl_align mx ex (Z.min ex ey)))) +
          cond_Zopp sy (Zpos (fst (shl_align my ey (Z.min ex ey))))) (Z.min ex ey) false).
    apply normalize_int; [|exact Hb].
    pose proof (sf_int_align sx mx ex n (Z.min ex ey) Hx ltac:(lia)) as Ax.
    pose proof (sf_int_align sy my ey m (Z.min ex ey) Hy ltac:(lia)) as Ay.
    destruct (Z.leb 0 (Z.min ex ey)).
    + rewrite Ax, Ay; ring.
    + rewrite Ax, Ay; ring.
Qed.

Lemma sf_int_sub (x y : spec_float) (n m : Z) :
  sf_int x = Some n -> sf_int y = Some m -> Z.abs (n - m) < 2 ^ 53 ->
  sf_int (SFsub prec emax x y) = Some (n - m).
Proof.
  intros Hx Hy Hb.
  destruct x as [sx|sx| |sx mx ex]; try discriminate;
    destruct y as [sy|sy| |sy my ey]; try discriminate.
  - simpl in Hx, Hy; injection Hx as <-; injection Hy as <-.
    destruct sx, sy; reflexivity.
  - simpl in Hx; injection Hx as <-; exact (sf_int_negb sy my ey m Hy).
  - simpl in Hy; injection Hy as <-; rewrite Z.sub_0_r; exact Hx.
  - change (SFsub prec emax (S754_finite sx mx ex) (S754_finite sy my ey)) with
      (binary_normalize prec emax
         (cond_Zopp sx (Zpos (fst (shl_align mx ex (Z.min ex ey)))) -
          cond_Zopp sy (Zpos (fst (shl_align my ey (Z.min ex ey))))) (Z.min ex ey) false).
    apply normalize_int; [|exact Hb].
    pose proof (sf_int_align sx mx ex n (Z.min ex ey) Hx ltac:(lia)) as Ax.
    pose proof (sf_int_align sy my ey m (Z.min ex ey) Hy ltac:(lia)) as Ay.
    destruct (Z.leb 0 (Z.min ex ey)).
    + rewrite Ax, Ay; ring.
    + rewrite Ax, Ay; ring.
Qed.

(** Binary64 [+] and [-] of integer-valued floats are exact while the
    result stays below [2^53] in magnitude. *)
Lemma float_int_add (x y : float) (n m : Z) :
  float_int x = Some n -> float_int y = Some m -> Z.abs (n + m) < 2 ^ 53 ->
  float_int (x + y)%float = Some (n + m).
Proof. unfold float_int; rewrite add_spec; unfold SF64add; apply sf_int_add. Qed.

Lemma float_int_sub (x y : float) (n m : Z) :
  float_int x = Some n -> float_int y = Some m -> Z.abs (n - m) < 2 ^ 53 ->
  float_int (x - y)%float = Some (n - m).
Proof. unfold float_int; rewrite sub_spec; unfold SF64sub; apply sf_int_sub. Qed.

End Exact.

(** ** Bookkeeping when every float operation is exact *)

Module ExactLedger.

Lemma int_of_zero : int_of 0%float = 0.
Proof. reflexivity. Qed.

Lemma is_int_zero : is_int 0%float = true.
Proof. reflexivity. Qed.

Lemma is_int_some x : is_int x = true -> float_int x = Some (int_of x).
Proof. unfold is_int, int_of; destruct (float_int x); [reflexivity|discriminate]. Qed.

Lemma int_of_some x n : float_int x = Some n -> int_of x = n /\ is_int x = true.
Proof. unfold is_int, int_of; intros ->; split; reflexivity. Qed.

Lemma abs_balances_nonneg ws : 0 <= abs_balances ws.
Proof. induction ws as [|w ws IH]; simpl; lia. Qed.

Lemma abs_amounts_cons r rs :
  abs_amounts (r :: rs) = Z.abs (int_of (request_amount r)) + abs_amounts rs.
Proof. reflexivity. Qed.

Lemma abs_amounts_nonneg rs : 0 <= abs_amounts rs.
Proof. induction rs as [|r rs IH]; simpl; lia. Qed.

Lemma update_absent (ws : list (Wallet float)) wid f :
  ~ In wid (map wallet_id ws) -> update_wallets wid f ws = ws.
Proof.
  intros Hn; induction ws as [|w ws IH]; [reflexivity|].
  change (update_wallets wid f (w :: ws)) with (upd wid f w :: update_wallets wid f ws).
  simpl in Hn; unfold upd.
  destruct (Z.eqb_spec (wallet_id w) wid); [tauto|].
  rewrite IH by tauto; reflexivity.
Qed.

(** [wallet.balance = f(wallet.balance)] on one row of a table with
    distinct ids, where [f] adds [d] exactly. *)
Lemma update_exact (ws : list (Wallet float)) wid f d :
  NoDup (map wallet_id ws) -> In wid (map wallet_id ws) ->
  forallb (fun w => is_int (balance w)) ws = true ->
  abs_balances ws + Z.abs d < 2 ^ 53 ->
  (forall x n, float_int x = Some n -> Z.abs (n + d) < 2 ^ 53 -> float_int (f x) = Some (n + d)) ->
  forallb (fun w => is_int (balance w)) (update_wallets wid f ws) = true /\
  int_sum (update_wallets wid f ws) = int_sum ws + d /\
  abs_balances (update_wallets wid f ws) <= abs_balances ws + Z.abs d.
Proof.
  intros Hnd Hin Hall Hb Hf.
  induction ws as [|w ws IH]; [destruct Hin|].
  simpl in Hnd, Hin; inversion Hnd as [|? ? Hnot Hnd']; subst.
  simpl in Hall; apply andb_prop in Hall as [Hw Hall].
  pose proof (abs_balances_nonneg ws) as H0.
  change (update_wallets wid f (w :: ws)) with (upd wid f w :: update_wallets wid f ws).
  unfold upd; destruct (Z.eqb_spec (wallet_id w) wid) as [E|E].
  - rewrite update_absent by (rewrite <- E; exact Hnot).
    pose proof (is_int_some _ Hw) as Hn; simpl in Hb.
    destruct (int_of_some _ _ (Hf _ _ Hn ltac:(lia))) as [Hv Hi].
    simpl; rewrite Hi, Hall, Hv; split; [reflexivity|split; lia].
  - destruct Hin as [Hin|Hin]; [contradiction|].
    simpl in Hb.
    destruct (IH Hnd' Hin Hall ltac:(lia)) as (Ha & Hs & Hab).
    simpl; rewrite Hw, Ha, Hs; split; [reflexivity|split; lia].
Qed.

Lemma in_ids (ws : list (Wallet float)) w : In w ws -> In (wallet_id w) (map wallet_id ws).
Proof. apply in_map. Qed.

(** One request, over integer-valued balances and amount. *)
Ltac red_goal := cbn [wallets is_ok request_amount withdrawn_or_spent deposited py_zero float_PyNum].

Lemma exec_request_exact (r : Request float) (db : DB float) :
  wallet_ids_unique db -> forallb (fun w => is_int (balance w)) (wallets db) = true ->
  is_int (request_amount r) = true ->
  abs_balances (wallets db) + 2 * Z.abs (int_of (request_amount r)) < 2 ^ 53 ->
  let '(res, db') := exec_request r db in
  wallet_ids_unique db' /\ forallb (fun w => is_int (balance w)) (wallets db') = true /\
  abs_balances (wallets db') <= abs_balances (wallets db) + 2 * Z.abs (int_of (request_amount r)) /\
  int_sum (wallets db') + (if is_ok res then int_of (withdrawn_or_spent r) else 0) =
  int_sum (wallets db) + (if is_ok res then int_of (deposited r) else 0).
Proof.
  intros Hu Hall Ha Hb; destruct db as [us ws ts]; unfold wallet_ids_unique in *; cbn [wallets] in Hu, Hall, Hb.
  destruct r as [u a|u a|u a c|u a rid c|u]; cbn [request_amount] in Ha, Hb; unfold exec_request, bind, ret;
    rewrite ?deposit_funds_eq, ?withdraw_funds_eq, ?buy_goods_eq,
      ?transfer_funds_eq, ?get_balance_eq;
    (destruct (active u && verified u); [|red_goal; split; [exact Hu|split; [exact Hall|lia]]]);
    (destruct (first_wallet_of (user_id u) _) as [w|] eqn:Hw; [|red_goal; split; [exact Hu|split; [exact Hall|lia]]]);
    destruct (first_wallet_of_in _ _ _ Hw) as [Hin _]; cbn [wallets] in Hin;
    try (pose proof (is_int_some _ Ha) as Hai).
  - destruct (update_exact ws (wallet_id w) (fun b => @py_add float float_PyNum b a) (int_of a) Hu (in_ids _ _ Hin) Hall
                ltac:(lia) (fun x n Hx Hxb => Exact.float_int_add x a n (int_of a) Hx Hai Hxb))
      as (Ha' & Hs & Hab).
    red_goal; split; [rewrite update_wallets_ids; exact Hu|].
    rewrite int_of_zero; split; [exact Ha'|split; lia].
  - destruct (py_gt a (balance w)); red_goal; [split; [exact Hu|split; [exact Hall|lia]]|].
    destruct (update_exact ws (wallet_id w) (fun b => @py_sub float float_PyNum b a) (- int_of a) Hu (in_ids _ _ Hin) Hall
                ltac:(lia) (fun x n Hx Hxb => Exact.float_int_sub x a n (int_of a) Hx Hai ltac:(lia)))
      as (Ha' & Hs & Hab).
    split; [rewrite update_wallets_ids; exact Hu|].
    rewrite int_of_zero; split; [exact Ha'|split; lia].
  - destruct (py_gt a (balance w)); red_goal; [split; [exact Hu|split; [exact Hall|lia]]|].
    destruct (update_exact ws (wallet_id w) (fun b => @py_sub float float_PyNum b a) (- int_of a) Hu (in_ids _ _ Hin) Hall
                ltac:(lia) (fun x n Hx Hxb => Exact.float_int_sub x a n (int_of a) Hx Hai ltac:(lia)))
      as (Ha' & Hs & Hab).
    split; [rewrite update_wallets_ids; exact Hu|].
    rewrite int_of_zero; split; [exact Ha'|split; lia].
  - destruct (py_gt a (balance w)); [red_goal; split; [exact Hu|split; [exact Hall|lia]]|].
    destruct (first_user rid _) as [r|]; [|red_goal; split; [exact Hu|split; [exact Hall|lia]]].
    destruct (negb (active r)); [red_goal; split; [exact Hu|split; [exact Hall|lia]]|].
    destruct (negb (verified r)); [red_goal; split; [exact Hu|split; [exact Hall|lia]]|].
    destruct (first_wallet_of rid _) as [rw|] eqn:Hrw; [|red_goal; split; [exact Hu|split; [exact Hall|lia]]].
    destruct (first_wallet_of_in _ _ _ Hrw) as [Hinr _]; cbn [wallets] in Hinr.
    destruct (update_exact ws (wallet_id w) (fun b => @py_sub float float_PyNum b a) (- int_of a) Hu (in_ids _ _ Hin) Hall
                ltac:(lia) (fun x n Hx Hxb => Exact.float_int_sub x a n (int_of a) Hx Hai ltac:(lia)))
      as (Ha1 & Hs1 & Hab1).
    set (ws1 := update_wallets (wallet_id w) (fun b => @py_sub float float_PyNum b a) ws) in *.
    assert (Hu1 : NoDup (map wallet_id ws1)) by (unfold ws1; rewrite update_wallets_ids; exact Hu).
    assert (Hin1 : In (wallet_id rw) (map wallet_id ws1))
      by (unfold ws1; rewrite update_wallets_ids; exact (in_ids _ _ Hinr)).
    destruct (update_exact ws1 (wallet_id rw) (fun b => @py_add float float_PyNum b a) (int_of a) Hu1 Hin1 Ha1
                ltac:(lia) (fun x n Hx Hxb => Exact.float_int_add x a n (int_of a) Hx Hai Hxb))
      as (Ha2 & Hs2 & Hab2).
    red_goal; fold ws1; split; [unfold ws1; rewrite !update_wallets_ids; exact Hu|].
    rewrite int_of_zero; split; [exact Ha2|split; lia].
  - red_goal; split; [exact Hu|split; [exact Hall|lia]].
Qed.

Lemma run_exact (rs : list (Request float)) (db : DB float) :
  wallet_ids_unique db -> exact_in_binary64 db rs = true ->
  forallb (fun w => is_int (balance w)) (wallets (fst (run rs db))) = true /\
  forallb (fun r => is_int (request_amount r)) (snd (run rs db)) = true /\
  int_sum (wallets (fst (run rs db))) + int_total withdrawn_or_spent (snd (run rs db)) =
  int_sum (wallets db) + int_total deposited (snd (run rs db)).
Proof.
  unfold exact_in_binary64.
  revert db; induction rs as [|r rs IH]; intros db Hu Hx;
    rewrite !andb_true_iff, Z.ltb_lt in Hx; destruct Hx as [[Hall Hrs] Hb].
  - simpl; split; [exact Hall|split; [reflexivity|lia]].
  - simpl in Hrs; apply andb_prop in Hrs as [Hr Hrs]; rewrite abs_amounts_cons in Hb.
    pose proof (abs_amounts_nonneg rs).
    pose proof (exec_request_exact r db Hu Hall Hr ltac:(lia)) as Hstep; simpl.
    destruct (exec_request r db) as [res db1]; destruct Hstep as (Hu1 & Hall1 & Hab1 & Hs1).
    assert (Hx1 : forallb (fun w => is_int (balance w)) (wallets db1) &&
                  forallb (fun r => is_int (request_amount r)) rs &&
                  Z.ltb (abs_balances (wallets db1) + 2 * abs_amounts rs) (2 ^ 53) = true)
      by (rewrite Hall1, Hrs; cbn [andb]; apply Z.ltb_lt; lia).
    destruct (IH db1 Hu1 Hx1) as (Hf & Hc & Hs).
    destruct (run rs db1) as [dbf cs]; simpl in *.
    split; [exact Hf|].
    destruct (is_ok res); simpl; [rewrite Hr, Hc; split; [reflexivity|lia]|split; [exact Hc|lia]].
Qed.

(** The exact value of an integer-valued float. *)
Lemma float_to_Q_int x n : float_int x = Some n -> (float_to_Q x == inject_Z n)%Q.
Proof.
  unfold float_int, float_to_Q; destruct (Prim2SF x) as [s|s| |s m e]; simpl; try discriminate.
  - intros H; injection H as <-; reflexivity.
  - destruct (Z.leb_spec 0 e) as [He|He].
    + intros H; injection H as <-; destruct s; simpl; [rewrite inject_Z_opp|]; reflexivity.
    + destruct (Z.eqb_spec (Zpos m mod 2 ^ (- e)) 0) as [Hm|]; [|discriminate].
      intros H; injection H as <-.
      pose proof (Exact.pow2_pos (- e) ltac:(lia)) as Hp.
      pose proof (Z.div_mod (Zpos m) (2 ^ (- e)) ltac:(lia)) as Hd; rewrite Hm, Z.add_0_r in Hd.
      assert (Hpow : Zpos (Pos.pow 2 (Z.to_pos (- e))) = 2 ^ (- e))
        by (rewrite Pos2Z.inj_pow, Z2Pos.id by lia; reflexivity).
      assert (Hq : (Qmake (Zpos m) (Pos.pow 2 (Z.to_pos (- e))) == inject_Z (Zpos m / 2 ^ (- e)))%Q).
      { unfold Qeq; simpl; rewrite Hpow; lia. }
      destruct s; simpl; [rewrite Hq, inject_Z_opp|]; [reflexivity|exact Hq].
Qed.

Lemma exact_sum_balances (ws : list (Wallet float)) :
  forallb (fun w => is_int (balance w)) ws = true ->
  (exact_sum (map balance ws) == inject_Z (int_sum ws))%Q.
Proof.
  induction ws as [|w ws IH]; simpl; [reflexivity|].
  intros H; apply andb_prop in H as [Hw H].
  rewrite (float_to_Q_int _ _ (is_int_some _ Hw)), IH by exact H.
  rewrite inject_Z_plus; reflexivity.
Qed.

Lemma exact_sum_requests (f : Request float -> float) (cs : list (Request float)) :
  (forall r, is_int (request_amount r) = true -> is_int (f r) = true) ->
  forallb (fun r => is_int (request_amount r)) cs = true ->
  (exact_sum (map f cs) == inject_Z (int_total f cs))%Q.
Proof.
  intros Hf; induction cs as [|r cs IH]; simpl; [reflexivity|].
  intros H; apply andb_prop in H as [Hr H].
  rewrite (float_to_Q_int _ _ (is_int_some _ (Hf r Hr))), IH by exact H.
  rewrite inject_Z_plus; reflexivity.
Qed.

Lemma deposited_int r : is_int (request_amount r) = true -> is_int (deposited r) = true.
Proof. destruct r; simpl; auto. Qed.

Lemma withdrawn_int r : is_int (request_amount r) = true -> is_int (withdrawn_or_spent r) = true.
Proof. destruct r; simpl; auto. Qed.

End ExactLedger.

(** ** Reading rows back after an update *)

Section Readback.
Context {N : Type}.

Lemma find_update_other (ws : list (Wallet N)) x y f :
  x <> y ->
  find (fun w => Z.eqb (wallet_id w) x) (update_wallets y f ws) =
  find (fun w => Z.eqb (wallet_id w) x) ws.
Proof.
  intros Hxy; induction ws as [|w ws IH]; simpl; [reflexivity|].
  destruct (Z.eqb (wallet_id w) y) eqn:Ey; simpl; rewrite ?IH.
  - apply Z.eqb_eq in Ey; rewrite Ey.
    destruct (Z.eqb_spec y x); [congruence|reflexivity].
  - reflexivity.
Qed.

Lemma in_update_other (ws : list (Wallet N)) w y f :
  In w ws -> wallet_id w <> y -> In w (update_wallets y f ws).
Proof.
  intros Hin Hne; unfold update_wallets; apply in_map_iff.
  exists w; split; [|exact Hin].
  destruct (Z.eqb_spec (wallet_id w) y); [contradiction|reflexivity].
Qed.

Lemma distinct_owners_distinct_ids (db : DB N) uid1 uid2 w1 w2 :
  wallet_ids_unique db ->
  first_wallet_of uid1 db = Some w1 -> first_wallet_of uid2 db = Some w2 ->
  uid1 <> uid2 -> wallet_id w1 <> wallet_id w2.
Proof.
  intros Hu H1 H2 Hne Heq.
  destruct (first_wallet_of_in _ _ _ H1) as [I1 U1].
  destruct (first_wallet_of_in _ _ _ H2) as [I2 U2].
  pose proof (unique_id_same _ _ _ Hu I1 I2 Heq); subst; congruence.
Qed.

End Readback.

Ltac case_all :=
  repeat match goal with
         | |- context [if ?b then _ else _] => destruct b
         | |- context [match ?x with Some _ => _ | None => _ end] => destruct x
         end.

Lemma nodup_10_20 : NoDup [10; 20].
Proof. constructor; [simpl; intros [H|[]]; discriminate | constructor; [simpl; tauto | constructor]]. Qed.

(** * Claims *)

(** ** C1: conservation of money *)

(** C1 (counterexample): with the code's binary64 balances, deposit 0.9 and
    then withdraw 0.2 from a fresh wallet: both requests commit, the balance
    becomes 0.7 (the float nearest 0.9 - 0.2), and the balances plus the
    amount withdrawn no longer add up to the amount deposited, neither in
    float arithmetic nor in the exact values of the floats. *)
Lemma C1_conservation_fails_binary64 :
  let '(dbf, cs) := run [RDeposit alice 0.9%float; RWithdraw alice 0.2%float]
                        (signup_store : DB float) in
  List.length cs = 2%nat /\
  balance_of 10 dbf = Some 0.7%float /\
  conserved_exactly signup_store dbf cs = false /\
  PrimFloat.eqb (sum_balances dbf + total withdrawn_or_spent cs)%float
                (total deposited cs) = false.
Proof. vm_compute. repeat split. Qed.

(** C1 (amended): with the code's binary64 floats, when every starting
    balance and every request amount is an integer-valued float and the
    magnitudes of the starting balances plus twice the amounts sum to less
    than [2^53] ([exact_in_binary64]), no addition or subtraction rounds;
    then every run of requests over a closed set of wallets with distinct ids
    ends with the exact sum of the balances plus the amounts withdrawn and
    spent by the committed requests equal to the exact sum of the starting
    balances plus the amounts deposited by the committed requests. *)
Theorem C1_conservation_binary64 (rs : list (Request float)) (db : DB float) :
  wallet_ids_unique db -> exact_in_binary64 db rs = true ->
  conserved_exactly db (fst (run rs db)) (snd (run rs db)) = true.
Proof.
  intros Hu Hx.
  destruct (ExactLedger.run_exact rs db Hu Hx) as (Hf & Hc & Hs).
  assert (H0 : forallb (fun w => is_int (balance w)) (wallets db) = true)
    by (unfold exact_in_binary64 in Hx; rewrite !andb_true_iff in Hx; tauto).
  unfold conserved_exactly; apply Qeq_bool_iff.
  rewrite (ExactLedger.exact_sum_balances _ Hf), (ExactLedger.exact_sum_balances _ H0),
    (ExactLedger.exact_sum_requests _ _ ExactLedger.withdrawn_int Hc),
    (ExactLedger.exact_sum_requests _ _ ExactLedger.deposited_int Hc).
  rewrite <- !inject_Z_plus, Hs; reflexivity.
Qed.

Lemma C1_conservation_binary64_witness :
  let rs := [RDeposit alice 500%float; RPurchase alice 120%float "Rent";
             RTransfer alice 200%float 2 "Family"; RWithdraw bob 150%float] in
  wallet_ids_unique (signup_store : DB float) /\ exact_in_binary64 signup_store rs = true /\
  List.length (snd (run rs signup_store)) = 4%nat /\
  conserved_exactly signup_store (fst (run rs signup_store)) (snd (run rs signup_store)) = true.
Proof.
  intros rs.
  assert (Hu : wallet_ids_unique (signup_store : DB float)) by exact nodup_10_20.
  assert (Hx : exact_in_binary64 signup_store rs = true) by (vm_compute; reflexivity).
  split; [exact Hu | split; [exact Hx | split; [vm_compute; reflexivity |]]].
  exact (C1_conservation_binary64 rs signup_store Hu Hx).
Defined.

(** ** C2: non-negative balances *)

(** C2 (counterexample): [amount: float = Field(..., gt=0)] accepts
    [inf] (the JSON number 1e309 reads as [inf]).  Depositing [inf] and then
    withdrawing [inf] commits both requests, and the balance becomes
    [inf - inf], a NaN, which is not [>= 0]. *)
Lemma C2_infinite_amount_nan_balance :
  float_gt_0 infinity = true /\
  let '(dbf, cs) := run [RDeposit alice infinity; RWithdraw alice infinity]
                        (signup_store : DB float) in
  List.length cs = 2%nat /\
  match balance_of 10 dbf with
  | Some b => PrimFloat.is_nan b = true /\ nonneg b = false
  | None => False
  end.
Proof. vm_compute. repeat split. Qed.

(** C2 (amended): for requests whose amounts are strictly positive and
    finite, starting from a store with distinct wallet ids and balances
    [>= 0] (the signup balance is 0.0), every wallet balance is [>= 0] after
    every prefix of the run, i.e. before and after every request. *)
Theorem C2_balances_stay_nonneg (rs : list (Request float)) (db : DB float) (k : nat) :
  wallet_ids_unique db -> balances_nonneg db ->
  Forall (fun r => request_amount_ok r = true) rs ->
  balances_nonneg (fst (run (firstn k rs) db)).
Proof.
  intros Hu Hn Hrs.
  exact (proj2 (run_nonneg (firstn k rs) db Hu Hn (Forall_firstn_prefix _ k rs Hrs))).
Qed.

Lemma C2_balances_stay_nonneg_witness :
  let rs := [RDeposit alice 500%float; RPurchase alice 120%float "Rent";
             RTransfer alice 380%float 2 "Family"; RWithdraw bob 0.1%float] in
  wallet_ids_unique (signup_store : DB float) /\ balances_nonneg signup_store /\
  Forall (fun r => request_amount_ok r = true) rs /\
  balances_nonneg (fst (run (firstn 3 rs) signup_store)).
Proof.
  intros rs.
  assert (Hu : wallet_ids_unique (signup_store : DB float)) by exact nodup_10_20.
  assert (Hn : balances_nonneg signup_store) by (repeat constructor).
  assert (Hrs : Forall (fun r => request_amount_ok r = true) rs) by (repeat constructor).
  split; [exact Hu | split; [exact Hn | split; [exact Hrs |]]].
  exact (C2_balances_stay_nonneg rs _ 3 Hu Hn Hrs).
Defined.

(** ** C3: transfer postcondition *)

(** C3 (counterexample): the recipient may be the sender.  A verified user
    with balance 10 transferring 5 to their own user id gets [Ok] and keeps
    balance 10: the sender's balance is not decreased by the amount. *)
Lemma C3_self_transfer_keeps_sender_balance :
  let '(res, db') := transfer_funds alice 5%float (user_id alice) "Savings" (alice_with 10%float) in
  res = Ok (5%float, 10%float) /\ balance_of 10 db' = Some 10%float.
Proof. vm_compute. split; reflexivity. Qed.

(** C3 (amended): for an active and verified sender whose wallet [w] holds
    at least the amount, and an active and verified recipient other than
    the sender with wallet [rw], [transfer_funds] succeeds, sets the sender's
    balance to the binary64 difference [balance w - a] and the recipient's to
    the binary64 sum [balance rw + a], leaves every other wallet and the
    users as they were, appends exactly a [Transfer] record on [w] with the
    category and a [Receive] record on [rw] without one, both for [a], and
    returns [balance w - a]. *)
Theorem C3_transfer_postcondition (u : User) (a : float) (rid : Z) (c : string)
    (db : DB float) (w rw : Wallet float) (r : User) :
  active u = true -> verified u = true ->
  first_wallet_of (user_id u) db = Some w ->
  PrimFloat.ltb (balance w) a = false ->
  first_user rid db = Some r -> active r = true -> verified r = true ->
  first_wallet_of rid db = Some rw ->
  rid <> user_id u ->
  wallet_ids_unique db ->
  let '(res, db') := transfer_funds u a rid c db in
  res = Ok (a, (balance w - a)%float) /\
  balance_of (wallet_id w) db' = Some (balance w - a)%float /\
  balance_of (wallet_id rw) db' = Some (balance rw + a)%float /\
  (forall wid, wid <> wallet_id w -> wid <> wallet_id rw ->
     balance_of wid db' = balance_of wid db) /\
  users db' = users db /\
  transactions db' = transactions db ++
    [mkTransaction (wallet_id w) Transfer a (Some c);
     mkTransaction (wallet_id rw) Receive a None].
Proof.
  intros Ha Hv Hw Hlt Hr Hra Hrv Hrw Hne Hu.
  pose proof (distinct_owners_distinct_ids db _ _ _ _ Hu Hrw Hw Hne) as Hid.
  destruct (first_wallet_of_in _ _ _ Hw) as [Iw _].
  destruct (first_wallet_of_in _ _ _ Hrw) as [Irw _].
  assert (Iu : NoDup (map wallet_id (update_wallets (wallet_id w)
                 (fun b => (b - a)%float) (wallets db))))
    by (rewrite update_wallets_ids; exact Hu).
  assert (Irw' : In rw (update_wallets (wallet_id w) (fun b => (b - a)%float) (wallets db)))
    by (apply in_update_other; auto).
  rewrite transfer_funds_eq, Ha, Hv, Hw; simpl py_gt; rewrite Hlt, Hr, Hra, Hrv, Hrw; simpl.
  unfold balance_of; simpl.
  rewrite (find_update_other _ (wallet_id w) (wallet_id rw)) by congruence.
  rewrite find_update_unique by assumption; simpl.
  repeat split.
  - rewrite find_update_unique by assumption; reflexivity.
  - intros wid H1 H2.
    rewrite find_update_other by assumption.
    rewrite find_update_other by assumption. reflexivity.
Qed.

Lemma C3_transfer_postcondition_witness :
  let db := alice_with 1000%float in
  let w := mkWallet 10 1 1000%float in
  let rw := mkWallet 20 2 0%float in
  let '(res, db') := transfer_funds alice 200%float 2 "Family" db in
  res = Ok (200%float, (balance w - 200)%float) /\
  balance_of (wallet_id w) db' = Some (balance w - 200)%float /\
  balance_of (wallet_id rw) db' = Some (balance rw + 200)%float /\
  (forall wid, wid <> wallet_id w -> wid <> wallet_id rw ->
     balance_of wid db' = balance_of wid db) /\
  users db' = users db /\
  transactions db' = transactions db ++
    [mkTransaction (wallet_id w) Transfer 200%float (Some "Family"%string);
     mkTransaction (wallet_id rw) Receive 200%float None].
Proof.
  exact (C3_transfer_postcondition alice 200%float 2 "Family" (alice_with 1000%float)
           (mkWallet 10 1 1000%float) (mkWallet 20 2 0%float) bob
           eq_refl eq_refl eq_refl eq_refl eq_refl eq_refl eq_refl eq_refl
           ltac:(discriminate) nodup_10_20).
Defined.

(** ** C4: failed validation changes nothing *)

(** C4: whenever [withdraw_funds], [buy_goods] or [transfer_funds] raises
    (user status, missing wallet, insufficient funds, missing, inactive or
    unverified recipient), the store at the raise is the store of the call:
    no balance changed and no transaction row was added. *)
Theorem C4_failed_request_keeps_store (u : User) (a : float) (rid : Z) (c : string)
    (db : DB float) :
  match withdraw_funds u a db with (Err _, db') => db' = db | (Ok _, _) => True end /\
  match buy_goods u a c db with (Err _, db') => db' = db | (Ok _, _) => True end /\
  match transfer_funds u a rid c db with (Err _, db') => db' = db | (Ok _, _) => True end.
Proof.
  rewrite withdraw_funds_eq, buy_goods_eq, transfer_funds_eq.
  repeat split; case_all; simpl; trivial.
Qed.

(** ** C5: withdrawal *)

(** C5 (counterexample): a balance of 1e16 (one deposit of 1e16 on a new
    wallet) and a withdrawal of 1: the request succeeds and records the
    withdrawal, but [1e16 - 1.0] rounds back to 1e16, so the balance does not
    decrease by the amount. *)
Lemma C5_withdraw_rounds_away :
  let '(dbf, cs) := run [RDeposit alice 1e16%float; RWithdraw alice 1%float]
                        (signup_store : DB float) in
  List.length cs = 2%nat /\
  balance_of 10 dbf = Some 1e16%float /\
  List.length (transactions dbf) = 2%nat.
Proof. vm_compute. repeat split. Qed.

(** C5 (amended): for an active and verified user whose wallet [w] is found
    (wallet ids distinct), [withdraw_funds] raises [InsufficientFunds] with
    the store unchanged exactly when [amount > balance]; otherwise it sets
    the balance to the binary64 difference [balance w - amount], appends one
    [Withdraw] record for the amount, and returns that difference; when the
    amount is finite, positive and equal to the balance, the result is 0. *)
Theorem C5_withdraw_correct (u : User) (a : float) (db : DB float) (w : Wallet float) :
  active u = true -> verified u = true ->
  first_wallet_of (user_id u) db = Some w -> wallet_ids_unique db ->
  (PrimFloat.ltb (balance w) a = true ->
     withdraw_funds u a db = (Err (InsufficientFunds (balance w)), db)) /\
  (PrimFloat.ltb (balance w) a = false ->
     withdraw_funds u a db =
     (Ok (a, (balance w - a)%float),
      mkDB (users db) (update_wallets (wallet_id w) (fun b => (b - a)%float) (wallets db))
           (transactions db ++ [mkTransaction (wallet_id w) Withdraw a None])) /\
     balance_of (wallet_id w) (snd (withdraw_funds u a db)) = Some (balance w - a)%float) /\
  (amount_ok a = true -> balance w = a ->
     fst (withdraw_funds u a db) = Ok (a, 0%float) /\
     balance_of (wallet_id w) (snd (withdraw_funds u a db)) = Some 0%float).
Proof.
  intros Ha Hv Hw Hu.
  destruct (first_wallet_of_in _ _ _ Hw) as [Iw _].
  assert (Hok : PrimFloat.ltb (balance w) a = false ->
     withdraw_funds u a db =
     (Ok (a, (balance w - a)%float),
      mkDB (users db) (update_wallets (wallet_id w) (fun b => (b - a)%float) (wallets db))
           (transactions db ++ [mkTransaction (wallet_id w) Withdraw a None]))).
  { intros Hlt; rewrite withdraw_funds_eq, Ha, Hv, Hw; simpl py_gt; rewrite Hlt; simpl.
    rewrite find_update_unique by assumption; reflexivity. }
  assert (Hbal : PrimFloat.ltb (balance w) a = false ->
     balance_of (wallet_id w) (snd (withdraw_funds u a db)) = Some (balance w - a)%float).
  { intros Hlt; rewrite (Hok Hlt); unfold balance_of; simpl.
    rewrite find_update_unique by assumption; reflexivity. }
  split; [|split].
  - intros Hlt; rewrite withdraw_funds_eq, Ha, Hv, Hw; simpl py_gt; rewrite Hlt; reflexivity.
  - intros Hlt; split; [exact (Hok Hlt) | exact (Hbal Hlt)].
  - intros Hamt Heq.
    assert (Hlt : PrimFloat.ltb (balance w) a = false).
    { rewrite Heq, ltb_spec. destruct (Binary64.amount_ok_spec a Hamt) as (m & e & ->).
      unfold SFltb, SFcompare; rewrite Z.compare_refl, Pos.compare_cont_refl; reflexivity. }
    rewrite (Hbal Hlt), (Hok Hlt); simpl; rewrite Heq, (Binary64.sub_self a Hamt).
    split; reflexivity.
Qed.

Lemma C5_withdraw_correct_witness :
  withdraw_funds alice 30%float (alice_with 30%float) =
  (Ok (30%float, (30 - 30)%float),
   mkDB [alice; bob] (update_wallets 10 (fun b => (b - 30)%float)
                        [mkWallet 10 1 30%float; mkWallet 20 2 0%float])
        [mkTransaction 10 Withdraw 30%float None]) /\
  balance_of 10 (snd (withdraw_funds alice 30%float (alice_with 30%float))) = Some (30 - 30)%float.
Proof.
  exact (proj1 (proj2 (C5_withdraw_correct alice 30%float (alice_with 30%float)
           (mkWallet 10 1 30%float) eq_refl eq_refl eq_refl nodup_10_20)) eq_refl).
Defined.

(** ** C6: order of the transfer checks *)

(** C6: [transfer_funds] checks the user's status first, then the sender's
    funds, then that the recipient exists, then the recipient's status
    (active before verified): each check's error is returned whatever the
    later checks would say. *)
Theorem C6_transfer_check_order (u : User) (a : float) (rid : Z) (c : string)
    (db : DB float) :
  let res := fst (transfer_funds u a rid c db) in
  (active u && verified u = false ->
     res = Err (UserStatus (if negb (active u) then "active" else "verified"))) /\
  (forall w, active u && verified u = true -> first_wallet_of (user_id u) db = Some w ->
     PrimFloat.ltb (balance w) a = true -> res = Err (InsufficientFunds (balance w))) /\
  (forall w, active u && verified u = true -> first_wallet_of (user_id u) db = Some w ->
     PrimFloat.ltb (balance w) a = false -> first_user rid db = None ->
     res = Err (RecipientNotFound rid)) /\
  (forall w r, active u && verified u = true -> first_wallet_of (user_id u) db = Some w ->
     PrimFloat.ltb (balance w) a = false -> first_user rid db = Some r ->
     active r = false -> res = Err RecipientInactive) /\
  (forall w r, active u && verified u = true -> first_wallet_of (user_id u) db = Some w ->
     PrimFloat.ltb (balance w) a = false -> first_user rid db = Some r ->
     active r = true -> verified r = false -> res = Err RecipientUnverified).
Proof.
  intros res; unfold res; rewrite transfer_funds_eq.
  repeat split.
  - intros H0; rewrite H0; reflexivity.
  - intros w H0 Hw Hlt; rewrite H0, Hw; simpl py_gt; rewrite Hlt; reflexivity.
  - intros w H0 Hw Hlt Hr; rewrite H0, Hw; simpl py_gt; rewrite Hlt, Hr; reflexivity.
  - intros w r H0 Hw Hlt Hr Hra; rewrite H0, Hw; simpl py_gt; rewrite Hlt, Hr, Hra; reflexivity.
  - intros w r H0 Hw Hlt Hr Hra Hrv;
      rewrite H0, Hw; simpl py_gt; rewrite Hlt, Hr, Hra, Hrv; reflexivity.
Qed.

(** A transfer of 50 from a balance of 30 to an inactive recipient reports
    [InsufficientFunds 30], not [RecipientInactive]. *)
Lemma C6_transfer_check_order_witness :
  fst (transfer_funds alice 50%float 3 "Gift"
         (mkDB [alice; bob; mkUser 3 false true]
               [mkWallet 10 1 30%float; mkWallet 20 2 0%float; mkWallet 30 3 0%float] []))
  = Err (InsufficientFunds 30%float).
Proof.
  exact (proj1 (proj2 (C6_transfer_check_order alice 50%float 3 "Gift"
           (mkDB [alice; bob; mkUser 3 false true]
                 [mkWallet 10 1 30%float; mkWallet 20 2 0%float; mkWallet 30 3 0%float] [])))
           (mkWallet 10 1 30%float) eq_refl eq_refl eq_refl).
Defined.

(** ** C7: number representation *)

(** C7 (counterexample): ten deposits of 0.10 on a new wallet leave the
    balance at 0.9999999999999999, not 1.00. *)
Lemma C7_ten_dimes_drift :
  let '(dbf, cs) := run (repeat (RDeposit alice 0.1%float) 10) (signup_store : DB float) in
  List.length cs = 10%nat /\
  match balance_of 10 dbf with
  | Some b => PrimFloat.eqb b 1%float = false
  | None => False
  end.
Proof. vm_compute. repeat split. Qed.

(** C7 (amended): balances and amounts are binary64 floats and the services
    combine them with binary64 addition and subtraction, rounding to nearest:
    a deposit sets the balance to the binary64 sum [balance w + amount], and
    ten deposits of 0.10 on a zero balance give 0.9999999999999999. *)
Theorem C7_binary64_balances :
  (forall (u : User) (a : float) (db : DB float) (w : Wallet float),
     active u = true -> verified u = true ->
     first_wallet_of (user_id u) db = Some w -> wallet_ids_unique db ->
     fst (deposit_funds u a db) = Ok (a, (balance w + a)%float) /\
     balance_of (wallet_id w) (snd (deposit_funds u a db)) = Some (balance w + a)%float) /\
  balance_of 10 (fst (run (repeat (RDeposit alice 0.1%float) 10) (signup_store : DB float)))
  = Some 0.9999999999999999%float.
Proof.
  split.
  - intros u a db w Ha Hv Hw Hu.
    destruct (first_wallet_of_in _ _ _ Hw) as [Iw _].
    rewrite deposit_funds_eq, Ha, Hv, Hw; simpl; unfold balance_of; simpl.
    rewrite !find_update_unique by assumption; split; reflexivity.
  - vm_compute; reflexivity.
Qed.

Lemma C7_binary64_balances_witness :
  fst (deposit_funds alice 0.1%float (alice_with 0.2%float)) = Ok (0.1%float, (0.2 + 0.1)%float) /\
  (0.2 + 0.1)%float = 0.30000000000000004%float.
Proof.
  split.
  - exact (proj1 (proj1 C7_binary64_balances alice 0.1%float (alice_with 0.2%float)
             (mkWallet 10 1 0.2%float) eq_refl eq_refl eq_refl nodup_10_20)).
  - vm_compute; reflexivity.
Defined.

(** ** C8: category length *)

(** C8 (counterexample): a category of two characters is refused by both
    [PurchaseRequest] and [TransferRequest] ([min_length=3]). *)
Lemma C8_two_char_category_refused :
  validate_PurchaseRequest 10%float "ab" = None /\
  validate_TransferRequest 10%float 2 "ab" = None /\
  validate_PurchaseRequest 10%float "a" = None.
Proof. vm_compute. repeat split. Qed.

(** C8 (amended): for a positive amount, [PurchaseRequest] and
    [TransferRequest] accept the category exactly when its length is between
    3 and 100 characters inclusive. *)
Theorem C8_category_length (a : float) (rid : Z) (s : string) :
  float_gt_0 a = true ->
  (validate_PurchaseRequest a s <> None <->
     (3 <= String.length s /\ String.length s <= 100)%nat) /\
  (validate_TransferRequest a rid s <> None <->
     (3 <= String.length s /\ String.length s <= 100)%nat).
Proof.
  intros Ha; unfold validate_PurchaseRequest, validate_TransferRequest, str_field_ok.
  rewrite Ha, andb_true_l.
  destruct (Nat.leb_spec 3 (String.length s)), (Nat.leb_spec (String.length s) 100);
    simpl; split; split; intros Hs;
    first [ split; lia | congruence | destruct Hs; lia ].
Qed.

Lemma C8_category_length_witness :
  validate_PurchaseRequest 40000%float "Rent" <> None /\
  validate_TransferRequest 2000%float 2 "Family" <> None.
Proof.
  split.
  - apply (proj2 (proj1 (C8_category_length 40000%float 2 "Rent" eq_refl))).
    simpl; lia.
  - apply (proj2 (proj2 (C8_category_length 2000%float 2 "Family" eq_refl))).
    simpl; lia.
Defined.

(** ** C9: self-transfer *)

(** C9 (counterexample): deposit 0.9, then transfer 0.2 to oneself: the
    transfer commits, but the balance becomes [(0.9 - 0.2) + 0.2] in binary64,
    i.e. 0.8999999999999999, not 0.9. *)
Lemma C9_self_transfer_changes_balance :
  let '(dbf, cs) := run [RDeposit alice 0.9%float; RTransfer alice 0.2%float 1 "Self"]
                        (signup_store : DB float) in
  List.length cs = 2%nat /\
  balance_of 10 dbf = Some 0.8999999999999999%float /\
  PrimFloat.eqb 0.8999999999999999%float 0.9%float = false.
Proof. vm_compute. repeat split. Qed.

(** C9 (amended): for an active and verified user with wallet [w] holding at
    least the amount, a transfer to the user's own id succeeds, debits and
    credits the same row, so the balance becomes [(balance w - a) + a]
    computed in binary64 (not always [balance w]), returns that value and
    appends a [Transfer] record with the category and a [Receive] record
    without one, both on [w] and for [a]. *)
Theorem C9_self_transfer (u : User) (a : float) (c : string) (db : DB float)
    (w : Wallet float) (r : User) :
  active u = true -> verified u = true ->
  first_wallet_of (user_id u) db = Some w ->
  PrimFloat.ltb (balance w) a = false ->
  first_user (user_id u) db = Some r -> active r = true -> verified r = true ->
  wallet_ids_unique db ->
  transfer_funds u a (user_id u) c db =
  (Ok (a, ((balance w - a) + a)%float),
   mkDB (users db)
        (update_wallets (wallet_id w) (fun b => ((b - a) + a)%float) (wallets db))
        (transactions db ++
         [mkTransaction (wallet_id w) Transfer a (Some c);
          mkTransaction (wallet_id w) Receive a None])).
Proof.
  intros Ha Hv Hw Hlt Hr Hra Hrv Hu.
  destruct (first_wallet_of_in _ _ _ Hw) as [Iw _].
  rewrite transfer_funds_eq, Ha, Hv, Hw; simpl py_gt; rewrite Hlt, Hr, Hra, Hrv; simpl.
  rewrite update_wallets_twice, find_update_unique by assumption.
  reflexivity.
Qed.

Lemma C9_self_transfer_witness :
  fst (transfer_funds alice 5%float 1 "Savings" (alice_with 10%float)) =
  Ok (5%float, ((10 - 5) + 5)%float).
Proof.
  exact (f_equal fst (C9_self_transfer alice 5%float "Savings" (alice_with 10%float)
           (mkWallet 10 1 10%float) alice eq_refl eq_refl eq_refl eq_refl eq_refl
           eq_refl eq_refl nodup_10_20)).
Defined.

(** ** C10: which status error the user gets *)

(** C10: for every request (deposit, withdraw, purchase, transfer, balance),
    an inactive user gets the "active" status error whatever their
    verification, and the "verified" status error is returned exactly when
    the user is active and unverified. *)
Theorem C10_status_error_precedence (r : Request float) (db : DB float) :
  (active (request_user r) = false ->
     fst (exec_request r db) = Err (UserStatus "active")) /\
  (fst (exec_request r db) = Err (UserStatus "verified") <->
     active (request_user r) = true /\ verified (request_user r) = false).
Proof.
  destruct r as [u a|u a|u a c|u a rid c|u]; unfold exec_request, bind, ret, request_user;
    rewrite ?deposit_funds_eq, ?withdraw_funds_eq, ?buy_goods_eq,
      ?transfer_funds_eq, ?get_balance_eq;
    destruct (active u), (verified u); simpl;
    (split; [intros; first [reflexivity | discriminate] |]);
    (split; [intros Hres | intros [H1 H2]; first [reflexivity | discriminate]]);
    try (split; reflexivity);
    repeat match type of Hres with
           | context [if ?b then _ else _] => destruct b
           | context [match ?x with Some _ => _ | None => _ end] => destruct x
           end; simpl in Hres; discriminate.
Qed.

Lemma C10_status_error_precedence_witness :
  fst (exec_request (RWithdraw (mkUser 3 false false) 50%float) (signup_store : DB float))
  = Err (UserStatus "active").
Proof.
  exact (proj1 (C10_status_error_precedence (RWithdraw (mkUser 3 false false) 50%float)
           signup_store) eq_refl).
Defined.

(** * Further properties of the code *)

Section ExtraFacts.
Context {N : Type} `{PyNum N}.

Lemma find_map_preserve (P : Wallet N -> bool) (g : Wallet N -> Wallet N) ws :
  (forall w, P (g w) = P w) -> find P (map g ws) = option_map g (find P ws).
Proof.
  intros Hg; induction ws as [|w ws IH]; simpl; [reflexivity|].
  rewrite Hg; destruct (P w); [reflexivity | exact IH].
Qed.

Lemma find_id_self (ws : list (Wallet N)) w :
  NoDup (map wallet_id ws) -> In w ws ->
  find (fun w' => Z.eqb (wallet_id w') (wallet_id w)) ws = Some w.
Proof.
  intros Hnd Hin; destruct (find _ ws) as [w'|] eqn:E.
  - apply find_some in E as [Hi He]; apply Z.eqb_eq in He.
    f_equal; apply (unique_id_same ws); auto.
  - apply (find_none _ _ E) in Hin; rewrite Z.eqb_refl in Hin; discriminate.
Qed.

Lemma update_wallets_map wid f (ws : list (Wallet N)) : update_wallets wid f ws = map (upd wid f) ws.
Proof. reflexivity. Qed.

Lemma upd_id wid (f : N -> N) w : wallet_id (upd wid f w) = wallet_id w.
Proof. unfold upd; destruct (Z.eqb _ _); reflexivity. Qed.

Lemma upd_owner wid (f : N -> N) w : wallet_user_id (upd wid f w) = wallet_user_id w.
Proof. unfold upd; destruct (Z.eqb _ _); reflexivity. Qed.

Lemma update_wallets_owners wid f (ws : list (Wallet N)) :
  map wallet_user_id (update_wallets wid f ws) = map wallet_user_id ws.
Proof. rewrite update_wallets_map, map_map; apply map_ext, upd_owner. Qed.

Lemma exec_request_tables (r : Request N) (db : DB N) :
  users (snd (exec_request r db)) = users db /\
  map wallet_id (wallets (snd (exec_request r db))) = map wallet_id (wallets db) /\
  map wallet_user_id (wallets (snd (exec_request r db))) = map wallet_user_id (wallets db) /\
  exists ts, transactions (snd (exec_request r db)) = transactions db ++ ts /\
    List.length ts = (if is_ok (fst (exec_request r db)) then records_written r else 0%nat).
Proof.
  destruct r as [u a|u a|u a c|u a rid c|u]; unfold exec_request, bind, ret;
    rewrite ?deposit_funds_eq, ?withdraw_funds_eq, ?buy_goods_eq,
      ?transfer_funds_eq, ?get_balance_eq;
    repeat match goal with
           | |- context [if ?b then _ else _] =>
             lazymatch b with is_ok _ => fail | _ => destruct b end
           | |- context [match ?x with Some _ => _ | None => _ end] => destruct x
           end; simpl;
    rewrite ?update_wallets_ids, ?update_wallets_owners;
    (split; [reflexivity|]); (split; [reflexivity|]); (split; [reflexivity|]);
    first [ exists []; rewrite app_nil_r; split; reflexivity
          | eexists; split; reflexivity ].
Qed.

End ExtraFacts.

(** Properties of the wallet services beyond the claims. *)

(** Over any run of requests the ledger is append-only: the user table is
    never written, no wallet is created or deleted and none changes owner or
    id, the transactions present before stay as they were, and the records
    added are exactly one per committed deposit, withdrawal or purchase,
    two per committed transfer and none for a balance query or a failed
    request. *)
Theorem run_append_only {N} `{PyNum N} (rs : list (Request N)) (db : DB N) :
  let '(dbf, cs) := run rs db in
  users dbf = users db /\
  map wallet_id (wallets dbf) = map wallet_id (wallets db) /\
  map wallet_user_id (wallets dbf) = map wallet_user_id (wallets db) /\
  exists ts, transactions dbf = transactions db ++ ts /\
    List.length ts = fold_right (fun r n => (records_written r + n)%nat) 0%nat cs.
Proof.
  revert db; induction rs as [|r rs IH]; intros db; simpl.
  - repeat split; exists []; rewrite app_nil_r; split; reflexivity.
  - pose proof (exec_request_tables r db) as (Hu & Hi & Ho & ts1 & Ht1 & Hl1).
    destruct (exec_request r db) as [res db1] eqn:E; simpl in *.
    specialize (IH db1); destruct (run rs db1) as [dbf cs].
    destruct IH as (Hu' & Hi' & Ho' & ts2 & Ht2 & Hl2).
    repeat split; try congruence.
    exists (ts1 ++ ts2); split.
    + rewrite Ht2, Ht1, app_assoc; reflexivity.
    + rewrite length_app, Hl1, Hl2; destruct (is_ok res); reflexivity.
Qed.

Section ExtraFacts2.
Context {N : Type} `{PyNum N}.

Lemma readback (g : Wallet N -> Wallet N) (db : DB N) w uid us ts :
  (forall x, wallet_id (g x) = wallet_id x) ->
  (forall x, wallet_user_id (g x) = wallet_user_id x) ->
  wallet_ids_unique db -> first_wallet_of uid db = Some w ->
  first_wallet_of uid (mkDB us (map g (wallets db)) ts) = Some (g w) /\
  find (fun w' => Z.eqb (wallet_id w') (wallet_id w)) (map g (wallets db)) = Some (g w).
Proof.
  intros Hid Hown Hu Hw; unfold first_wallet_of in *; simpl.
  destruct (first_wallet_of_in uid db w Hw) as [Iw _].
  split.
  - rewrite (find_map_preserve _ g); [rewrite Hw; reflexivity|].
    intros x; rewrite Hown; reflexivity.
  - rewrite (find_map_preserve _ g); [rewrite find_id_self by assumption; reflexivity|].
    intros x; rewrite Hid; reflexivity.
Qed.

(** The balance a committed request reports ([wallet_balance], or
    [balance] for a query) is the balance stored for the acting user: a
    [get_balance] right after it, on the store it left, returns the same
    value and changes nothing. *)
Theorem reported_balance_is_stored (r : Request N) (db db' : DB N) (b : N) :
  wallet_ids_unique db -> exec_request r db = (Ok b, db') ->
  get_balance (request_user r) db' = (Ok b, db').
Proof.
  intros Hu.
  destruct r as [u a|u a|u a c|u a rid c|u]; unfold exec_request, bind, ret, request_user;
    rewrite ?deposit_funds_eq, ?withdraw_funds_eq, ?buy_goods_eq,
      ?transfer_funds_eq, ?get_balance_eq;
    intros E; cbv zeta in E;
    repeat match type of E with
           | context [if ?b then _ else _] => destruct b eqn:?
           | context [match ?x with Some _ => _ | None => _ end] =>
             lazymatch x with find _ (update_wallets _ _ _) => fail | _ => destruct x eqn:? end
           end; try discriminate E;
    injection E as <- <-; simpl andb;
    rewrite ?update_wallets_map, ?map_map;
    repeat match goal with H : (_ && _)%bool = true |- _ => rewrite H end.
  - destruct (readback (upd (wallet_id w) (fun b => py_add b a)) db w (user_id u)
                (users db) (transactions db ++ [mkTransaction (wallet_id w) Deposit a None]))
      as [-> ->]; auto using upd_id, upd_owner.
  - destruct (readback (upd (wallet_id w) (fun b => py_sub b a)) db w (user_id u)
                (users db) (transactions db ++ [mkTransaction (wallet_id w) Withdraw a None]))
      as [-> ->]; auto using upd_id, upd_owner.
  - destruct (readback (upd (wallet_id w) (fun b => py_sub b a)) db w (user_id u)
                (users db) (transactions db ++ [mkTransaction (wallet_id w) Purchase a (Some c)]))
      as [-> ->]; auto using upd_id, upd_owner.
  - match goal with
    | |- context [first_wallet_of _ (mkDB _ (map ?g _) ?ts)] =>
      destruct (readback g db w (user_id u) (users db) ts) as [-> ->]; auto;
      intros x; rewrite ?upd_id, ?upd_owner; reflexivity
    end.
  - match goal with H : first_wallet_of _ _ = Some _ |- _ => rewrite H end; reflexivity.
Qed.

End ExtraFacts2.

Section ExtraFacts3.
Context {N : Type} `{PyNum N}.

(** [buy_goods] (the [/transact] endpoint) for an active and verified user
    whose wallet [w] is found: it raises [InsufficientFunds] with the store
    unchanged exactly when [amount > balance]; otherwise it sets the balance
    to [balance - amount], appends one [Purchase] record on [w] carrying the
    category, leaves users and the other wallets as they were and returns
    the new balance.  [deposit_funds] has no funds check: it always commits,
    sets the balance to [balance + amount] and appends one [Deposit] record
    without category. *)
Theorem purchase_and_deposit_postconditions (u : User) (a : N) (c : string) (db : DB N)
    (w : Wallet N) :
  active u = true -> verified u = true ->
  first_wallet_of (user_id u) db = Some w -> wallet_ids_unique db ->
  (py_gt a (balance w) = true -> buy_goods u a c db = (Err (InsufficientFunds (balance w)), db)) /\
  (py_gt a (balance w) = false ->
     buy_goods u a c db =
     (Ok (a, py_sub (balance w) a),
      mkDB (users db) (update_wallets (wallet_id w) (fun b => py_sub b a) (wallets db))
           (transactions db ++ [mkTransaction (wallet_id w) Purchase a (Some c)]))) /\
  deposit_funds u a db =
  (Ok (a, py_add (balance w) a),
   mkDB (users db) (update_wallets (wallet_id w) (fun b => py_add b a) (wallets db))
        (transactions db ++ [mkTransaction (wallet_id w) Deposit a None])).
Proof.
  intros Ha Hv Hw Hu.
  destruct (first_wallet_of_in _ _ _ Hw) as [Iw _].
  rewrite buy_goods_eq, deposit_funds_eq, Ha, Hv, Hw; simpl.
  rewrite !find_update_unique by assumption; simpl.
  split; [intros ->; reflexivity|]; split; [intros ->; reflexivity|reflexivity].
Qed.

(** A user without a wallet row: every wallet request of an active and
    verified user raises [WalletNotFound] for the user's id, with the store
    unchanged; and a transfer that passes every other check to an active,
    verified recipient without a wallet raises [WalletNotFound] for the
    recipient's id, with the store unchanged. *)
Theorem missing_wallet_error (db : DB N) :
  (forall r : Request N,
     active (request_user r) = true -> verified (request_user r) = true ->
     first_wallet_of (user_id (request_user r)) db = None ->
     exec_request r db = (Err (WalletNotFound (user_id (request_user r))), db)) /\
  (forall (u : User) (a : N) rid c w rcp,
     active u = true -> verified u = true ->
     first_wallet_of (user_id u) db = Some w ->
     py_gt a (balance w) = false -> first_user rid db = Some rcp ->
     active rcp = true -> verified rcp = true -> first_wallet_of rid db = None ->
     transfer_funds u a rid c db = (Err (WalletNotFound rid), db)).
Proof.
  split.
  - intros r Ha Hv Hw.
    destruct r as [u a|u a|u a c|u a rid c|u]; simpl in *;
      unfold exec_request, bind, ret;
      rewrite ?deposit_funds_eq, ?withdraw_funds_eq, ?buy_goods_eq,
        ?transfer_funds_eq, ?get_balance_eq, Ha, Hv, Hw; reflexivity.
  - intros u a rid c w rcp Ha Hv Hw Hgt Hr Hra Hrv Hrw.
    rewrite transfer_funds_eq, Ha, Hv, Hw, Hgt, Hr, Hra, Hrv, Hrw; reflexivity.
Qed.

End ExtraFacts3.

(** Properties of the account services and of the wallet routes. *)

Lemma find_map_pred {A} (P : A -> bool) (g : A -> A) (l : list A) :
  (forall x, P (g x) = P x) -> find P (map g l) = option_map g (find P l).
Proof.
  intros Hg; induction l as [|x l IH]; simpl; [reflexivity|].
  rewrite Hg; destruct (P x); [reflexivity | exact IH].
Qed.

Lemma find_app_none {A} (P : A -> bool) (l : list A) x :
  find P l = None -> find P (l ++ [x]) = if P x then Some x else None.
Proof.
  induction l as [|y l IH]; simpl; [reflexivity|].
  destruct (P y); [discriminate | exact IH].
Qed.

Lemma nodup_snoc {A} (l : list A) x : NoDup l -> ~ In x l -> NoDup (l ++ [x]).
Proof.
  induction l as [|y l IH]; simpl; intros Hnd Hin.
  - repeat constructor; simpl; tauto.
  - inversion Hnd as [|? ? Hy Hl]; subst; constructor.
    + rewrite in_app_iff; simpl; intuition.
    + apply IH; tauto.
Qed.

Lemma get_user_none_notin e s : get_user e s = None -> ~ In e (map email (user_rows s)).
Proof.
  unfold get_user; intros Hf Hin; apply in_map_iff in Hin as (r & <- & Hr).
  apply (find_none _ _ Hf) in Hr; rewrite String.eqb_refl in Hr; discriminate.
Qed.

Lemma get_user_email e s u : get_user e s = Some u -> email u = e.
Proof. unfold get_user; intros Hf; apply find_some in Hf as [_ He]; apply String.eqb_eq, He. Qed.

Lemma with_ledger_ledger s : with_ledger s (ledger s) = s.
Proof. destruct s; reflexivity. Qed.

Lemma exec_request_status_blocked (r : Request float) (db : DB float) :
  active (request_user r) && verified (request_user r) = false ->
  exec_request r db =
  (Err (UserStatus (if negb (active (request_user r)) then "active" else "verified")), db).
Proof.
  intros Hs; destruct r as [u a|u a|u a c|u a rid c|u]; simpl in *;
    unfold exec_request, bind, ret;
    rewrite ?deposit_funds_eq, ?withdraw_funds_eq, ?buy_goods_eq,
      ?transfer_funds_eq, ?get_balance_eq, Hs; reflexivity.
Qed.

Section AuthFacts.
Context `{Security}.

(** [create_user] never registers an email twice: with an email already in
    the user table it raises "Email is already registered" and changes
    nothing, so whatever it returns, emails that were distinct stay
    distinct. *)
Theorem create_user_email_unique (nm e p salt : string) (nid nwid : Z) (s : Store) :
  (forall u, get_user e s = Some u -> create_user nm e p salt nid nwid s = (AErr EmailTaken, s)) /\
  (NoDup (map email (user_rows s)) ->
   NoDup (map email (user_rows (snd (create_user nm e p salt nid nwid s))))).
Proof.
  unfold create_user; split.
  - intros u ->; reflexivity.
  - intros Hnd; destruct (get_user e s) eqn:Hg; [exact Hnd|].
    destruct (get_password_hash p salt); [|exact Hnd].
    destruct (create_access_token e); simpl;
      rewrite map_app; simpl; apply nodup_snoc; auto using get_user_none_notin.
Qed.

(** A new account cannot move money until its email is verified: after
    [create_user] commits (the email was free and hashing succeeded), the
    account is active and unverified with a wallet, and a wallet endpoint
    called with a token for that email fails with "User is not verified"
    and changes nothing. *)
Theorem new_account_blocked_until_verified (nm e p salt tok h : string) (nid nwid : Z)
    (s : Store) (mk : User -> Request float) :
  get_user e s = None -> get_password_hash p salt = Some h ->
  jwt_decode_sub tok = Some (Some e) ->
  (forall u, request_user (mk u) = u) ->
  let s' := snd (create_user nm e p salt nid nwid s) in
  get_user e s' = Some (mkUserRow nid e nm h false true "user") /\
  In (mkWallet nwid nid 0%float) (store_wallets s') /\
  wallet_route tok mk s' = (inl (ServiceFailed (UserStatus "verified")), s').
Proof.
  intros Hg Hh Hd Hmk s'.
  assert (Hs' : s' = mkStore (user_rows s ++ [mkUserRow nid e nm h false true "user"])
                             (store_wallets s ++ [mkWallet nwid nid 0%float]) (store_transactions s)).
  { unfold s', create_user; rewrite Hg, Hh; destruct (create_access_token e); reflexivity. }
  assert (Hu : get_user e s' = Some (mkUserRow nid e nm h false true "user")).
  { rewrite Hs'; unfold get_user; simpl; rewrite find_app_none by exact Hg; simpl.
    rewrite String.eqb_refl; reflexivity. }
  split; [exact Hu|split].
  - rewrite Hs'; simpl; apply in_or_app; simpl; auto.
  - unfold wallet_route, get_current_user; rewrite Hd, Hu.
    rewrite exec_request_status_blocked by (rewrite Hmk; reflexivity).
    rewrite Hmk, with_ledger_ledger; reflexivity.
Qed.

End AuthFacts.

Lemma find_owner_snoc (ws : list (Wallet float)) w uid :
  ~ In uid (map wallet_user_id ws) -> wallet_user_id w = uid ->
  find (fun w' => Z.eqb (wallet_user_id w') uid) (ws ++ [w]) = Some w.
Proof.
  intros Hn Hw; rewrite find_app_none.
  - rewrite Hw, Z.eqb_refl; reflexivity.
  - destruct (find _ ws) as [x|] eqn:E; [|reflexivity].
    apply find_some in E as [Hx He]; apply Z.eqb_eq in He.
    exfalso; apply Hn; rewrite <- He; apply in_map, Hx.
Qed.

Lemma update_wallets_fresh_snoc (ws : list (Wallet float)) w f :
  ~ In (wallet_id w) (map wallet_id ws) ->
  update_wallets (wallet_id w) f (ws ++ [w]) =
  ws ++ [mkWallet (wallet_id w) (wallet_user_id w) (f (balance w))].
Proof.
  induction ws as [|x ws IH]; simpl; intros Hn.
  - rewrite Z.eqb_refl; reflexivity.
  - destruct (Z.eqb (wallet_id x) (wallet_id w)) eqn:E.
    + apply Z.eqb_eq in E; exfalso; apply Hn; left; exact E.
    + f_equal; apply IH; tauto.
Qed.

Section AuthFacts2.
Context `{Security}.

(** Sign-up, verification and a first deposit compose: after [create_user]
    commits with fresh user and wallet ids, [verify_user] with a token for
    the new email verifies the account, and a deposit through the
    [/deposit] endpoint with that token then commits on the new wallet,
    whose balance goes from 0.0 to [0.0 + amount]. *)
Theorem signup_verify_deposit (nm e p salt tok h : string) (nid nwid : Z) (a : float)
    (s : Store) :
  get_user e s = None -> get_password_hash p salt = Some h ->
  jwt_decode_sub tok = Some (Some e) -> e <> ""%string ->
  ~ In nid (map wallet_user_id (store_wallets s)) ->
  ~ In nwid (map wallet_id (store_wallets s)) ->
  let s1 := snd (create_user nm e p salt nid nwid s) in
  let '(res2, s2) := verify_user tok s1 in
  res2 = AOk NowVerified /\
  wallet_route tok (fun u => RDeposit u a) s2 =
  (inr (0 + a)%float,
   mkStore (user_rows s2) (store_wallets s ++ [mkWallet nwid nid (0 + a)%float])
           (store_transactions s ++ [mkTransaction nwid Deposit a None])).
Proof.
  intros Hg Hh Hd He Hown Hid s1.
  set (row := mkUserRow nid e nm h false true "user").
  assert (Hs1 : s1 = mkStore (user_rows s ++ [row])
                             (store_wallets s ++ [mkWallet nwid nid 0%float]) (store_transactions s)).
  { unfold s1, create_user; rewrite Hg, Hh; destruct (create_access_token e); reflexivity. }
  assert (Hu1 : get_user e s1 = Some row).
  { rewrite Hs1; unfold get_user; simpl; rewrite find_app_none by exact Hg; simpl.
    rewrite String.eqb_refl; reflexivity. }
  assert (Hv : validate_token tok = AOk e).
  { unfold validate_token; rewrite Hd; destruct (String.eqb_spec e ""); congruence. }
  unfold verify_user; rewrite Hv, Hu1; simpl.
  split; [reflexivity|].
  unfold wallet_route, get_current_user; rewrite Hd.
  unfold get_user at 1; simpl; rewrite Hs1; simpl; unfold set_row.
  rewrite (find_map_pred _ (fun r => if Z.eqb (row_id r) nid then with_verified true r else r))
    by (intros x; destruct (Z.eqb (row_id x) nid); reflexivity).
  rewrite find_app_none by exact Hg; simpl; rewrite String.eqb_refl; simpl.
  rewrite Z.eqb_refl; simpl.
  unfold exec_request, bind, ret; rewrite deposit_funds_eq; simpl.
  unfold first_wallet_of; simpl.
  rewrite (find_owner_snoc _ (mkWallet nwid nid 0%float) nid Hown eq_refl); simpl.
  rewrite (update_wallets_fresh_snoc _ (mkWallet nwid nid 0%float)) by exact Hid; simpl.
  rewrite find_app_none.
  - simpl; rewrite Z.eqb_refl; reflexivity.
  - destruct (find _ (store_wallets s)) as [x|] eqn:E; [|reflexivity].
    apply find_some in E as [Hx Hxe]; apply Z.eqb_eq in Hxe.
    exfalso; apply Hid; rewrite <- Hxe; apply in_map, Hx.
Qed.

(** [verify_user] acts once: when it verifies an account, calling it again
    with the same token answers "already verified" and changes nothing; and
    the verification wrote only the [verified] column (wallets,
    transactions, and every user's email, active flag and password hash are
    as before). *)
Theorem verify_user_once (tok : string) (s s' : Store) :
  verify_user tok s = (AOk NowVerified, s') ->
  verify_user tok s' = (AOk AlreadyVerified, s') /\
  store_wallets s' = store_wallets s /\ store_transactions s' = store_transactions s /\
  map email (user_rows s') = map email (user_rows s) /\
  map row_active (user_rows s') = map row_active (user_rows s) /\
  map password_hash (user_rows s') = map password_hash (user_rows s).
Proof.
  unfold verify_user.
  destruct (validate_token tok) as [e|err]; [|discriminate].
  destruct (get_user e s) as [u|] eqn:Hg; [|discriminate].
  destruct (row_verified u) eqn:Hvu; [discriminate|].
  intros E; injection E as <-.
  assert (Hcol : forall (c : UserRow -> string) ,
            (forall r, c (with_verified true r) = c r) ->
            map c (set_row (row_id u) (with_verified true) (user_rows s)) = map c (user_rows s)).
  { intros c Hc; unfold set_row; rewrite map_map; apply map_ext; intros r.
    destruct (Z.eqb _ _); [apply Hc | reflexivity]. }
  unfold get_user at 1; simpl; unfold set_row at 1.
  rewrite (find_map_pred _ (fun r => if Z.eqb (row_id r) (row_id u) then with_verified true r else r))
    by (intros x; destruct (Z.eqb (row_id x) (row_id u)); reflexivity).
  change (find (fun r => String.eqb (email r) e) (user_rows s)) with (get_user e s).
  rewrite Hg; simpl; rewrite Z.eqb_refl; simpl.
  split; [reflexivity|]; split; [reflexivity|]; split; [reflexivity|].
  split; [apply Hcol; reflexivity|]; split; [|apply Hcol; reflexivity].
  unfold set_row; rewrite map_map; apply map_ext; intros r; destruct (Z.eqb _ _); reflexivity.
Qed.

End AuthFacts2.

Section AuthFacts3.
Context `{Security}.

(** [login_user] issues a token exactly when the email has an account, the
    password checks against its hash, and the account is verified and
    active; so an account that can log in passes the wallet services'
    [validate_user_status]. *)
Theorem login_user_ok (e p t : string) (s : Store) :
  (login_user e p s = AOk t <->
   exists u, get_user e s = Some u /\ verify_password p (password_hash u) = Some true /\
     row_verified u = true /\ row_active u = true /\ create_access_token e = Some t) /\
  (forall u (db : DB float), login_user e p s = AOk t -> get_user e s = Some u ->
     validate_user_status (to_user u) db = (Ok tt, db)).
Proof.
  assert (Hiff : login_user e p s = AOk t <->
   exists u, get_user e s = Some u /\ verify_password p (password_hash u) = Some true /\
     row_verified u = true /\ row_active u = true /\ create_access_token e = Some t).
  { unfold login_user, authenticate_user, deny_access; split.
    - destruct (get_user e s) as [u|] eqn:Hg; [|discriminate].
      pose proof (get_user_email _ _ _ Hg) as Hem.
      destruct (verify_password p (password_hash u)) as [[|]|] eqn:Hp; try discriminate.
      destruct (row_verified u) eqn:Hv, (row_active u) eqn:Ha; simpl; try discriminate.
      rewrite Hem; destruct (create_access_token e) eqn:Ht; [|discriminate].
      intros E; injection E as ->; exists u; repeat split; assumption.
    - intros (u & Hg & Hp & Hv & Ha & Ht).
      rewrite Hg, Hp, Hv, Ha; simpl; rewrite (get_user_email _ _ _ Hg), Ht; reflexivity. }
  split; [exact Hiff|].
  intros u db Hl Hg; apply Hiff in Hl as (u' & Hg' & _ & Hv & Ha & _).
  rewrite Hg in Hg'; injection Hg' as <-.
  unfold validate_user_status, to_user; simpl; rewrite Ha, Hv; reflexivity.
Qed.

(** The refusals of [login_user]: an unknown email and a wrong password
    get the same "Incorrect email or password"; a right password on an
    unverified account gets "User is not verified" whether or not the
    account is active (the login checks [verified] first, while
    [validate_user_status] reports an inactive account as "active"); a
    verified but inactive account gets "User is not active". *)
Theorem login_user_refusals (e p : string) (s : Store) :
  (get_user e s = None -> login_user e p s = AErr (AccessDenied "Incorrect email or password")) /\
  (forall u, get_user e s = Some u ->
     (verify_password p (password_hash u) = Some false ->
        login_user e p s = AErr (AccessDenied "Incorrect email or password")) /\
     (verify_password p (password_hash u) = Some true -> row_verified u = false ->
        login_user e p s = AErr (AccessDenied "User is not verified") /\
        (row_active u = false -> forall db : DB float,
           validate_user_status (to_user u) db = (Err (UserStatus "active"), db))) /\
     (verify_password p (password_hash u) = Some true -> row_verified u = true ->
        row_active u = false -> login_user e p s = AErr (AccessDenied "User is not active"))).
Proof.
  unfold login_user, authenticate_user, deny_access; split.
  - intros ->; reflexivity.
  - intros u ->; split; [|split].
    + intros ->; reflexivity.
    + intros -> ->; split; [reflexivity|].
      intros Ha db; unfold validate_user_status, to_user; simpl; rewrite Ha; reflexivity.
    + intros -> -> ->; reflexivity.
Qed.

(** Changing the password through [update_user_password] (a token for an
    existing email) writes only that account's password hash; when the
    hash checks against the new password, logging in with the new password
    then succeeds for a verified, active account.  A token for an email
    without an account gets "User not found" and changes nothing. *)
Theorem update_password_then_login (tok e np salt h t : string) (u : UserRow) (s : Store) :
  validate_token tok = AOk e ->
  (get_user e s = None -> update_user_password tok np salt s = (AErr UserNotFound, s)) /\
  (get_user e s = Some u -> get_password_hash np salt = Some h ->
   verify_password np h = Some true -> row_verified u = true -> row_active u = true ->
   create_access_token e = Some t ->
   let '(res, s') := update_user_password tok np salt s in
   res = AOk tt /\ login_user e np s' = AOk t /\
   store_wallets s' = store_wallets s /\ store_transactions s' = store_transactions s /\
   map email (user_rows s') = map email (user_rows s) /\
   map row_verified (user_rows s') = map row_verified (user_rows s) /\
   map row_active (user_rows s') = map row_active (user_rows s)).
Proof.
  intros Hv; unfold update_user_password; rewrite Hv; split; [intros ->; reflexivity|].
  intros Hg Hh Hp Hvu Hau Ht; rewrite Hg, Hh.
  assert (Hcol : forall {B} (c : UserRow -> B),
            (forall r, c (with_password_hash h r) = c r) ->
            map c (set_row (row_id u) (with_password_hash h) (user_rows s)) = map c (user_rows s)).
  { intros B c Hc; unfold set_row; rewrite map_map; apply map_ext; intros r.
    destruct (Z.eqb _ _); [apply Hc | reflexivity]. }
  split; [reflexivity|]; split.
  - unfold login_user, authenticate_user, get_user at 1; simpl; unfold set_row at 1.
    rewrite (find_map_pred _ (fun r => if Z.eqb (row_id r) (row_id u) then with_password_hash h r else r))
      by (intros x; destruct (Z.eqb (row_id x) (row_id u)); reflexivity).
    change (find (fun r => String.eqb (email r) e) (user_rows s)) with (get_user e s).
    rewrite Hg; simpl; rewrite Z.eqb_refl; simpl.
    rewrite Hp; unfold with_password_hash; simpl; rewrite Hvu, Hau; simpl.
    rewrite (get_user_email _ _ _ Hg), Ht; reflexivity.
  - repeat split; apply Hcol; reflexivity.
Qed.

(** The wallet endpoints check the account behind the token: a token
    that does not decode, or whose email has no account, gets "Could not
    validate credentials"; a token still valid for a deactivated account
    reaches the service, which refuses with "User is not active".  Either
    way nothing changes. *)
Theorem wallet_route_rejects (tok : string) (mk : User -> Request float) (s : Store) :
  (forall u, request_user (mk u) = u) ->
  ((forall e, jwt_decode_sub tok = Some (Some e) -> get_user e s = None) ->
     wallet_route tok mk s = (inl (AuthFailed CredentialsInvalid), s)) /\
  (forall e u, jwt_decode_sub tok = Some (Some e) -> get_user e s = Some u ->
     row_active u = false ->
     wallet_route tok mk s = (inl (ServiceFailed (UserStatus "active")), s)).
Proof.
  intros Hmk; unfold wallet_route, get_current_user; split.
  - intros Hn; destruct (jwt_decode_sub tok) as [[e|]|] eqn:Hd; try reflexivity.
    rewrite (Hn e eq_refl); reflexivity.
  - intros e u Hd Hg Ha; rewrite Hd, Hg.
    rewrite exec_request_status_blocked by (rewrite Hmk; unfold to_user; simpl; rewrite Ha; reflexivity).
    rewrite Hmk, with_ledger_ledger; unfold to_user; simpl; rewrite Ha; reflexivity.
Qed.

End AuthFacts3.

(** Properties of the analytics services. *)

Lemma same_category_spec x y : same_category x y = true <-> x = y.
Proof.
  destruct x as [x|], y as [y|]; simpl; split; intros E; try discriminate; try reflexivity.
  - apply String.eqb_eq in E; subst; reflexivity.
  - injection E as ->; apply String.eqb_refl.
Qed.

Lemma same_category_refl x : same_category x x = true.
Proof. apply same_category_spec; reflexivity. Qed.

Lemma same_category_sym x y : same_category x y = same_category y x.
Proof.
  destruct (same_category x y) eqn:E.
  - apply same_category_spec in E; subst; symmetry; apply same_category_refl.
  - destruct (same_category y x) eqn:E'; [|reflexivity].
    apply same_category_spec in E'; subst; rewrite same_category_refl in E; discriminate.
Qed.

Lemma filter_given_nonempty s : s <> ""%string -> filter_given (Some s) = Some s.
Proof.
  intros Hs; simpl; destruct (String.eqb s "") eqn:E; [|reflexivity].
  apply String.eqb_eq in E; contradiction.
Qed.

Section AnalyticsFacts.
Context {N : Type} `{PyNum N}.

Lemma fetch_transactions_ok (start end_ : Z) (ty cat : option string) (user : User)
    (rows : list (TxRow N)) (db : DB N) (w : Wallet N) :
  first_wallet_of (user_id user) db = Some w ->
  exists q, fetch_transactions start end_ ty cat user rows db = (Ok q, db) /\
  forall t, In t q <->
    In t rows /\ tx_wallet_id (row_tx t) = wallet_id w /\
    start <= created_on t <= end_ /\
    (forall s, filter_given ty = Some s -> tx_type_name (tx_type (row_tx t)) = s) /\
    (forall c, filter_given cat = Some c -> tx_category (row_tx t) = Some c).
Proof.
  intros Hw; unfold fetch_transactions, bind, ret, get_wallet_info.
  unfold first_wallet_of in Hw; rewrite Hw.
  eexists; split; [reflexivity|]; intros t.
  destruct (filter_given cat) as [c|]; destruct (filter_given ty) as [s|];
    rewrite ?filter_In; unfold in_window, category_is;
    rewrite ?andb_true_iff, ?Z.eqb_eq, ?Z.leb_le, ?String.eqb_eq;
    (split; [intros Hq | intros (Hr & Hid & Hwin & Hty & Hc)]).
  all: repeat match goal with
              | H : _ /\ _ |- _ => destruct H
              end.
  all: repeat split; try assumption; try lia; try discriminate.
  all: try (intros ? E; injection E as <-); try assumption.
  all: try (destruct (tx_category (row_tx t)) as [c'|]; [f_equal; apply String.eqb_eq; assumption | discriminate]).
  all: try (rewrite (Hc _ eq_refl); apply String.eqb_refl).
  all: try (apply Hty; reflexivity).
Qed.

(** [/request-statement] ([fetch_transactions]) returns exactly the rows of
    the user's (first) wallet dated within [start, end], further restricted
    to the given type and category when those filters are non-empty
    strings ([None] and [""] filter nothing; a row without category never
    matches a category filter).  It reads the store without changing it. *)
Theorem fetch_transactions_spec (start end_ : Z) (ty cat : option string) (user : User)
    (rows : list (TxRow N)) (db : DB N) (w : Wallet N) :
  first_wallet_of (user_id user) db = Some w ->
  exists q, fetch_transactions start end_ ty cat user rows db = (Ok q, db) /\
  forall t, In t q <->
    In t rows /\ tx_wallet_id (row_tx t) = wallet_id w /\
    start <= created_on t <= end_ /\
    (forall s, filter_given ty = Some s -> tx_type_name (tx_type (row_tx t)) = s) /\
    (forall c, filter_given cat = Some c -> tx_category (row_tx t) = Some c).
Proof. exact (fetch_transactions_ok start end_ ty cat user rows db w). Qed.

(** A type filter that is none of the names the services store
    ("Deposit", "Withdraw", "Purchase", "Transfer", "Receive"), such as
    "Withdrawal" offered by the route's documentation, makes
    [fetch_transactions] return no rows at all. *)
Theorem fetch_unknown_type_empty (start end_ : Z) (s : string) (cat : option string)
    (user : User) (rows : list (TxRow N)) (db : DB N) (w : Wallet N) :
  first_wallet_of (user_id user) db = Some w ->
  s <> ""%string ->
  (forall k, tx_type_name k <> s) ->
  fetch_transactions start end_ (Some s) cat user rows db = (Ok [], db).
Proof.
  intros Hw Hs Hk.
  destruct (fetch_transactions_ok start end_ (Some s) cat user rows db w Hw) as [q [E Hq]].
  rewrite E; destruct q as [|t q]; [reflexivity|].
  exfalso; destruct (proj1 (Hq t) (or_introl eq_refl)) as (_ & _ & _ & Hty & _).
  apply (Hk (tx_type (row_tx t))), Hty, filter_given_nonempty, Hs.
Qed.

(** The analytics services need a wallet and nothing else: without one
    both answer [WalletNotFound]; with one both succeed whatever the
    user's [is_active] and [is_verified] flags, while [get_balance]
    refuses the same user when a flag is off. *)
Theorem analytics_need_only_a_wallet (start end_ : Z) (ty cat : option string)
    (user : User) (rows : list (TxRow N)) (db : DB N) :
  (first_wallet_of (user_id user) db = None ->
     fetch_transactions start end_ ty cat user rows db = (Err (WalletNotFound (user_id user)), db) /\
     calculate_spending_summary start end_ user rows db = (Err (WalletNotFound (user_id user)), db)) /\
  (forall w, first_wallet_of (user_id user) db = Some w ->
     (exists q, fetch_transactions start end_ ty cat user rows db = (Ok q, db)) /\
     (exists gs, calculate_spending_summary start end_ user rows db = (Ok gs, db)) /\
     (active user = false -> get_balance user db = (Err (UserStatus "active"), db)) /\
     (active user = true -> verified user = false ->
        get_balance user db = (Err (UserStatus "verified"), db))).
Proof.
  unfold fetch_transactions, calculate_spending_summary, get_balance, validate_user_status,
    bind, ret, raise, get_wallet_info, first_wallet_of.
  split.
  - intros Hn; rewrite Hn; split; reflexivity.
  - intros w Hw; rewrite Hw; split; [eexists; reflexivity|].
    split; [eexists; reflexivity|].
    split; intros Ha; [|intros Hv]; rewrite Ha; [|rewrite Hv]; reflexivity.
Qed.

End AnalyticsFacts.

Section GroupFacts.
Context {N : Type} `{PyNum N}.

Lemma lookup_add_to_group (c c' : option string) (a : N) (gs : list (option string * N)) :
  option_map snd (find (fun g => same_category (fst g) c') (add_to_group c a gs)) =
  if same_category c c'
  then Some (match option_map snd (find (fun g => same_category (fst g) c) gs) with
             | Some s0 => py_add s0 a | None => a end)
  else option_map snd (find (fun g => same_category (fst g) c') gs).
Proof.
  induction gs as [|[k s] gs IH]; simpl.
  - destruct (same_category c c'); reflexivity.
  - destruct (same_category k c) eqn:Ekc; simpl.
    + apply same_category_spec in Ekc; subst k.
      simpl; destruct (same_category c c'); reflexivity.
    + destruct (same_category k c') eqn:Ekc'.
      * apply same_category_spec in Ekc'; subst k.
        rewrite same_category_sym, Ekc; reflexivity.
      * rewrite IH; reflexivity.
Qed.

Lemma lookup_group_fold (c : option string) (ts : list (Transaction N)) gs :
  option_map snd (find (fun g => same_category (fst g) c)
    (fold_left (fun gs t => add_to_group (tx_category t) (tx_amount t) gs) ts gs)) =
  match option_map snd (find (fun g => same_category (fst g) c) gs),
        filter (fun t => same_category (tx_category t) c) ts with
  | Some s0, l => Some (fold_left (fun acc t => py_add acc (tx_amount t)) l s0)
  | None, [] => None
  | None, t0 :: rest => Some (fold_left (fun acc t => py_add acc (tx_amount t)) rest (tx_amount t0))
  end.
Proof.
  revert gs; induction ts as [|t ts IH]; intros gs; simpl.
  - destruct (option_map snd _); reflexivity.
  - rewrite IH, lookup_add_to_group.
    destruct (same_category (tx_category t) c) eqn:E.
    + apply same_category_spec in E; subst c.
      destruct (option_map snd _); reflexivity.
    + reflexivity.
Qed.

Lemma add_to_group_keys (c : option string) (a : N) gs x :
  In x (map fst (add_to_group c a gs)) -> x = c \/ In x (map fst gs).
Proof.
  induction gs as [|[k s] gs IH]; simpl.
  - intros [<-|[]]; left; reflexivity.
  - destruct (same_category k c); simpl; intros [<-|Hx]; auto.
    destruct (IH Hx); auto.
Qed.

Lemma add_to_group_nodup (c : option string) (a : N) gs :
  NoDup (map fst gs) -> NoDup (map fst (add_to_group c a gs)).
Proof.
  induction gs as [|[k s] gs IH]; simpl; intros Hd.
  - constructor; [intros []|constructor].
  - inversion Hd as [|? ? Hk Hd']; subst.
    destruct (same_category k c) eqn:E; simpl; [exact Hd|].
    constructor; [|exact (IH Hd')].
    intros Hin; destruct (add_to_group_keys _ _ _ _ Hin) as [->|Hin'].
    + rewrite same_category_refl in E; discriminate.
    + contradiction.
Qed.

Lemma group_fold_nodup (ts : list (Transaction N)) gs :
  NoDup (map fst gs) ->
  NoDup (map fst (fold_left (fun gs t => add_to_group (tx_category t) (tx_amount t) gs) ts gs)).
Proof.
  revert gs; induction ts as [|t ts IH]; intros gs Hd; simpl; [exact Hd|].
  apply IH, add_to_group_nodup, Hd.
Qed.

Lemma in_groups_lookup (gs : list (option string * N)) c s :
  NoDup (map fst gs) ->
  (In (c, s) gs <-> option_map snd (find (fun g => same_category (fst g) c) gs) = Some s).
Proof.
  induction gs as [|[k s'] gs IH]; simpl; intros Hd.
  - split; [intros []|discriminate].
  - inversion Hd as [|? ? Hk Hd']; subst.
    destruct (same_category k c) eqn:E; simpl.
    + apply same_category_spec in E; subst k.
      split.
      * intros [E|Hin]; [injection E as ->; reflexivity|].
        exfalso; apply Hk, (in_map fst _ _ Hin).
      * intros E; injection E as ->; left; reflexivity.
    + rewrite <- (IH Hd'); split; [intros [E'|Hin]; [|exact Hin]|intros Hin; right; exact Hin].
      injection E' as -> ->; rewrite same_category_refl in E; discriminate.
Qed.

(** [/spending-summary] ([calculate_spending_summary]): the result has one
    row per category (NULL being a category of its own), a category appears
    iff some purchase of the user's wallet dated within [start, end] has
    it, and its amount is [SUM(amount)] over those purchases, taken as the
    running sum [((a1 + a2) + a3) + ...] of the number type in row order
    (binary64 additions for the code's floats).  Other transaction types,
    other wallets and dates outside the window never count. *)
Theorem spending_summary_totals (start end_ : Z) (user : User) (rows : list (TxRow N))
    (db : DB N) (w : Wallet N) :
  first_wallet_of (user_id user) db = Some w ->
  let purchases :=
    map row_tx (filter (fun t => Z.eqb (tx_wallet_id (row_tx t)) (wallet_id w)
                                 && String.eqb (tx_type_name (tx_type (row_tx t))) "Purchase"
                                 && in_window start end_ t) rows) in
  exists gs, calculate_spending_summary start end_ user rows db = (Ok gs, db) /\
  NoDup (map fst gs) /\
  forall c s, In (c, s) gs <->
    exists t0 rest,
      filter (fun t => same_category (tx_category t) c) purchases = t0 :: rest /\
      s = fold_left (fun acc t => py_add acc (tx_amount t)) rest (tx_amount t0).
Proof.
  intros Hw purchases.
  unfold calculate_spending_summary, bind, ret, get_wallet_info.
  unfold first_wallet_of in Hw; rewrite Hw.
  exists (group_sum purchases); split; [reflexivity|].
  assert (Hd : NoDup (map fst (group_sum purchases))) by (apply group_fold_nodup; constructor).
  split; [exact Hd|]; intros c s.
  rewrite (in_groups_lookup _ _ _ Hd); unfold group_sum; rewrite lookup_group_fold; simpl.
  destruct (filter (fun t => same_category (tx_category t) c) purchases) as [|t0 rest].
  - split; [discriminate|intros (t0 & rest & E & _); discriminate E].
  - split.
    + intros E; injection E as <-; exists t0, rest; split; reflexivity.
    + intros (t1 & rest1 & E & ->); injection E as -> ->; reflexivity.
Qed.

End GroupFacts.

(** ** Witnesses of the further properties *)

#[local] Existing Instance echo_security.

Lemma reported_balance_is_stored_witness :
  let db' := snd (exec_request (RDeposit alice 5%float) (signup_store : DB float)) in
  exec_request (RDeposit alice 5%float) (signup_store : DB float) = (Ok 5%float, db') /\
  get_balance alice db' = (Ok 5%float, db').
Proof.
  intros db'; split; [reflexivity|].
  exact (reported_balance_is_stored (RDeposit alice 5%float) signup_store db' 5%float nodup_10_20 eq_refl).
Defined.

Lemma purchase_and_deposit_postconditions_witness :
  buy_goods alice 30%float "Rent" (mkDB [alice; bob] [mkWallet 10 1 100%float; mkWallet 20 2 0%float] []) =
  (Ok (30%float, (100 - 30)%float),
   mkDB [alice; bob] (update_wallets 10 (fun b => (b - 30)%float) [mkWallet 10 1 100%float; mkWallet 20 2 0%float])
        [mkTransaction 10 Purchase 30%float (Some "Rent"%string)]) /\
  buy_goods alice 300%float "Rent" (mkDB [alice; bob] [mkWallet 10 1 100%float; mkWallet 20 2 0%float] []) =
  (Err (InsufficientFunds 100%float), mkDB [alice; bob] [mkWallet 10 1 100%float; mkWallet 20 2 0%float] []).
Proof.
  split.
  - exact (proj1 (proj2 (purchase_and_deposit_postconditions alice 30%float "Rent"
             (mkDB [alice; bob] [mkWallet 10 1 100%float; mkWallet 20 2 0%float] []) (mkWallet 10 1 100%float)
             eq_refl eq_refl eq_refl nodup_10_20)) eq_refl).
  - exact (proj1 (purchase_and_deposit_postconditions alice 300%float "Rent"
             (mkDB [alice; bob] [mkWallet 10 1 100%float; mkWallet 20 2 0%float] []) (mkWallet 10 1 100%float)
             eq_refl eq_refl eq_refl nodup_10_20) eq_refl).
Defined.

Lemma missing_wallet_error_witness :
  exec_request (RDeposit bob 5%float) (mkDB [alice; bob] [mkWallet 10 1 100%float] []) =
  (Err (WalletNotFound 2), mkDB [alice; bob] [mkWallet 10 1 100%float] []) /\
  transfer_funds alice 5%float 2 "Gift"%string (mkDB [alice; bob] [mkWallet 10 1 100%float] []) =
  (Err (WalletNotFound 2), mkDB [alice; bob] [mkWallet 10 1 100%float] []).
Proof.
  split.
  - exact (proj1 (missing_wallet_error (mkDB [alice; bob] [mkWallet 10 1 100%float] []))
             (RDeposit bob 5%float) eq_refl eq_refl eq_refl).
  - exact (proj2 (missing_wallet_error (mkDB [alice; bob] [mkWallet 10 1 100%float] []))
             alice 5%float 2 "Gift"%string (mkWallet 10 1 100%float) bob
             eq_refl eq_refl eq_refl eq_refl eq_refl eq_refl eq_refl eq_refl).
Defined.

Lemma create_user_email_unique_witness :
  let st := mkStore [mkUserRow 2 "bob@x.io" "Bob" "hb" true true "user"] [mkWallet 20 2 0%float] [] in
  create_user "Robert" "bob@x.io" "pw" "salt" 3 30 st = (AErr EmailTaken, st) /\
  NoDup (map email (user_rows (snd (create_user "Ann" "ann@x.io" "pw" "salt" 3 30 st)))).
Proof.
  intros st; split.
  - exact (proj1 (create_user_email_unique "Robert" "bob@x.io" "pw" "salt" 3 30 st)
             _ eq_refl).
  - apply (proj2 (create_user_email_unique "Ann" "ann@x.io" "pw" "salt" 3 30 st)).
    constructor; [intros []|constructor].
Defined.

Lemma new_account_blocked_until_verified_witness :
  let st := mkStore [mkUserRow 2 "bob@x.io" "Bob" "hb" true true "user"] [mkWallet 20 2 0%float] [] in
  let s' := snd (create_user "Ann" "ann@x.io" "pw" "salt" 3 30 st) in
  wallet_route "ann@x.io" (fun u => RDeposit u 5%float) s' =
  (inl (ServiceFailed (UserStatus "verified")), s').
Proof.
  intros st s'.
  exact (proj2 (proj2 (new_account_blocked_until_verified "Ann" "ann@x.io" "pw" "salt"
           "ann@x.io" "pw" 3 30 st (fun u => RDeposit u 5%float)
           eq_refl eq_refl eq_refl (fun u => eq_refl)))).
Defined.

Lemma signup_verify_deposit_witness :
  let st := mkStore [mkUserRow 2 "bob@x.io" "Bob" "hb" true true "user"] [mkWallet 20 2 0%float] [] in
  let s1 := snd (create_user "Ann" "ann@x.io" "pw" "salt" 3 30 st) in
  let '(res2, s2) := verify_user "ann@x.io" s1 in
  res2 = AOk NowVerified /\
  wallet_route "ann@x.io" (fun u => RDeposit u 5%float) s2 =
  (inr (0 + 5)%float,
   mkStore (user_rows s2) (store_wallets st ++ [mkWallet 30 3 (0 + 5)%float])
           (store_transactions st ++ [mkTransaction 30 Deposit 5%float None])).
Proof.
  intros st.
  exact (signup_verify_deposit "Ann" "ann@x.io" "pw" "salt" "ann@x.io" "pw" 3 30 5%float st
           eq_refl eq_refl eq_refl ltac:(discriminate)
           ltac:(simpl; intros [E|[]]; discriminate)
           ltac:(simpl; intros [E|[]]; discriminate)).
Defined.

Lemma verify_user_once_witness :
  let st := mkStore [mkUserRow 1 "ann@x.io" "Ann" "pw" false true "user"] [mkWallet 10 1 0%float] [] in
  let s' := snd (verify_user "ann@x.io" st) in
  verify_user "ann@x.io" st = (AOk NowVerified, s') /\
  verify_user "ann@x.io" s' = (AOk AlreadyVerified, s').
Proof.
  intros st s'; split; [reflexivity|].
  exact (proj1 (verify_user_once "ann@x.io" st s' eq_refl)).
Defined.

Lemma login_user_ok_witness :
  let st := mkStore [mkUserRow 1 "ann@x.io" "Ann" "pw" true true "user"] [mkWallet 10 1 0%float] [] in
  login_user "ann@x.io" "pw" st = AOk "ann@x.io"%string /\
  validate_user_status (to_user (mkUserRow 1 "ann@x.io" "Ann" "pw" true true "user")) (alice_with 1%float)
  = (Ok tt, alice_with 1%float).
Proof.
  intros st.
  assert (Hl : login_user "ann@x.io" "pw" st = AOk "ann@x.io"%string).
  { apply (proj1 (login_user_ok "ann@x.io" "pw" "ann@x.io" st)).
    exists (mkUserRow 1 "ann@x.io" "Ann" "pw" true true "user").
    repeat split; reflexivity. }
  split; [exact Hl|].
  exact (proj2 (login_user_ok "ann@x.io" "pw" "ann@x.io" st) _ _ Hl eq_refl).
Defined.

Lemma login_user_refusals_witness :
  let st := mkStore [mkUserRow 1 "ann@x.io" "Ann" "pw" false true "user"] [mkWallet 10 1 0%float] [] in
  login_user "eve@x.io" "pw" st = AErr (AccessDenied "Incorrect email or password") /\
  login_user "ann@x.io" "guess" st = AErr (AccessDenied "Incorrect email or password") /\
  login_user "ann@x.io" "pw" st = AErr (AccessDenied "User is not verified").
Proof.
  intros st.
  pose proof (login_user_refusals "eve@x.io" "pw" st) as [Hn _].
  pose proof (login_user_refusals "ann@x.io" "guess" st) as [_ Hg].
  pose proof (login_user_refusals "ann@x.io" "pw" st) as [_ Hp].
  split; [exact (Hn eq_refl)|split].
  - exact (proj1 (Hg _ eq_refl) eq_refl).
  - exact (proj1 (proj1 (proj2 (Hp _ eq_refl)) eq_refl eq_refl)).
Defined.

Lemma update_password_then_login_witness :
  let st := mkStore [mkUserRow 1 "ann@x.io" "Ann" "pw" true true "user"] [mkWallet 10 1 0%float] [] in
  update_user_password "eve@x.io" "new" "salt" st = (AErr UserNotFound, st) /\
  login_user "ann@x.io" "new" (snd (update_user_password "ann@x.io" "new" "salt" st)) = AOk "ann@x.io"%string.
Proof.
  intros st; split.
  - exact (proj1 (update_password_then_login "eve@x.io" "eve@x.io" "new" "salt" "new" "eve@x.io"
             (mkUserRow 1 "ann@x.io" "Ann" "pw" true true "user") st eq_refl) eq_refl).
  - pose proof (proj2 (update_password_then_login "ann@x.io" "ann@x.io" "new" "salt" "new" "ann@x.io"
             (mkUserRow 1 "ann@x.io" "Ann" "pw" true true "user") st eq_refl)
             eq_refl eq_refl eq_refl eq_refl eq_refl eq_refl) as Hx.
    destruct (update_user_password "ann@x.io" "new" "salt" st) as [res s'].
    exact (proj1 (proj2 Hx)).
Defined.

Lemma wallet_route_rejects_witness :
  let st := mkStore [mkUserRow 1 "ann@x.io" "Ann" "pw" true false "user"] [mkWallet 10 1 7%float] [] in
  wallet_route "eve@x.io" (fun u => RWithdraw u 5%float) st = (inl (AuthFailed CredentialsInvalid), st) /\
  wallet_route "ann@x.io" (fun u => RWithdraw u 5%float) st =
  (inl (ServiceFailed (UserStatus "active")), st).
Proof.
  intros st; split.
  - apply (proj1 (wallet_route_rejects "eve@x.io" (fun u => RWithdraw u 5%float) st (fun u => eq_refl))).
    intros e He; injection He as <-; reflexivity.
  - exact (proj2 (wallet_route_rejects "ann@x.io" (fun u => RWithdraw u 5%float) st (fun u => eq_refl))
             "ann@x.io"%string _ eq_refl eq_refl eq_refl).
Defined.

Lemma fetch_transactions_spec_witness :
  let rows := [mkTxRow _ (mkTransaction 10 Purchase 12%float (Some "Rent"%string)) 5;
               mkTxRow _ (mkTransaction 10 Deposit 40%float None) 6;
               mkTxRow _ (mkTransaction 20 Purchase 3%float (Some "Rent"%string)) 5] in
  exists q, fetch_transactions 1 9 (Some ""%string) (Some "Rent"%string) alice rows (alice_with 50%float) =
            (Ok q, alice_with 50%float) /\
            In (mkTxRow _ (mkTransaction 10 Purchase 12%float (Some "Rent"%string)) 5) q /\
            ~ In (mkTxRow _ (mkTransaction 10 Deposit 40%float None) 6) q.
Proof.
  intros rows.
  destruct (fetch_transactions_spec 1 9 (Some ""%string) (Some "Rent"%string) alice rows (alice_with 50%float)
              (mkWallet 10 1 50%float) eq_refl) as [q [E Hq]].
  exists q; split; [exact E|split].
  - apply Hq; split; [left; reflexivity|].
    split; [reflexivity|split; [cbn; lia|split]].
    + intros s Hs; discriminate Hs.
    + intros c Hc; injection Hc as <-; reflexivity.
  - intros Hin; destruct (proj1 (Hq _) Hin) as (_ & _ & _ & _ & Hc).
    discriminate (Hc "Rent"%string eq_refl).
Defined.

Lemma fetch_unknown_type_empty_witness :
  let rows := [mkTxRow _ (mkTransaction 10 Withdraw 12%float None) 5] in
  fetch_transactions 1 9 (Some "Withdrawal"%string) None alice rows (alice_with 50%float) =
  (Ok [], alice_with 50%float).
Proof.
  intros rows.
  exact (fetch_unknown_type_empty 1 9 "Withdrawal" None alice rows (alice_with 50%float)
           (mkWallet 10 1 50%float) eq_refl ltac:(discriminate)
           ltac:(intros k; destruct k; discriminate)).
Defined.

Lemma analytics_need_only_a_wallet_witness :
  let u := mkUser 1 false true in
  let db := mkDB [u] [mkWallet 10 1 5%float] [] in
  get_balance u db = (Err (UserStatus "active"), db) /\
  (exists q, fetch_transactions 1 9 None None u [] db = (Ok q, db)) /\
  fetch_transactions 1 9 None None bob [] db = (Err (WalletNotFound 2), db).
Proof.
  intros u db.
  destruct (proj2 (analytics_need_only_a_wallet 1 9 None None u [] db) (mkWallet 10 1 5%float) eq_refl)
    as (Hq & _ & Ha & _).
  split; [exact (Ha eq_refl)|split; [exact Hq|]].
  exact (proj1 (proj1 (analytics_need_only_a_wallet 1 9 None None bob [] db) eq_refl)).
Defined.

Lemma spending_summary_totals_witness :
  let rows := [mkTxRow _ (mkTransaction 10 Purchase 0.1%float (Some "Rent"%string)) 5;
               mkTxRow _ (mkTransaction 10 Purchase 4%float None) 6;
               mkTxRow _ (mkTransaction 10 Deposit 100%float None) 6;
               mkTxRow _ (mkTransaction 10 Purchase 0.2%float (Some "Rent"%string)) 7;
               mkTxRow _ (mkTransaction 20 Purchase 50%float (Some "Rent"%string)) 7;
               mkTxRow _ (mkTransaction 10 Purchase 7%float (Some "Rent"%string)) 20] in
  exists gs, calculate_spending_summary 1 9 alice rows (alice_with 0%float) = (Ok gs, alice_with 0%float) /\
    In (Some "Rent"%string, (0.1 + 0.2)%float) gs /\ In (None, 4%float) gs /\
    (0.1 + 0.2)%float = 0.30000000000000004%float.
Proof.
  intros rows.
  pose proof (spending_summary_totals 1 9 alice rows (alice_with 0%float) (mkWallet 10 1 0%float) eq_refl)
    as Hx.
  cbv zeta in Hx; destruct Hx as [gs [E [_ Hin]]].
  exists gs; split; [exact E|split; [|split]].
  - apply Hin; eexists; eexists; split; reflexivity.
  - apply Hin; eexists; eexists; split; reflexivity.
  - vm_compute; reflexivity.
Defined.
